(** * Verification model of the file-transfer protocol (client and two servers)

    Shallow embedding of [src/server/server_saloni.go],
    [src/server/saloni_server.go] and the client [src/unnamed/part_000].

    The packages [file-transfer/messages] (the framed channel) and
    [file-transfer/util] (checksum comparison) are not part of the sources;
    their parts are modelled from the spec and marked as such.

    Programs are written in a small free monad [prog] whose commands are the
    channel and filesystem calls the Go code makes.  [exec] runs a program
    against the items its peer has sent so far; [connect] runs a client and
    a server against each other over one connection. *)

From Stdlib Require Import ZArith Lia.
From stdpp Require Import base list gmap strings.
From Stdlib Require Import String Ascii.

Open Scope Z_scope.

Definition byte := Byte.byte.

(** ** Message catalogue (the protobuf [Wrapper] and its variants) *)

(** [Wrapper.Msg] is a protobuf oneof: one variant or nothing ([EEmpty]).
    Sizes are Go [uint64] values, kept as [N]. *)
Inductive envelope : Type :=
| EStorageReq (fileName : string) (size : N)
| ERetrievalReq (fileName : string)
| EResponse (ok : bool) (message : string)
| ERetrievalResp (ok : bool) (message : string) (size : N)
| EChecksum (checksum : list byte)
| EEmpty.

(** What travels on the connection: framed envelopes and, between an
    acknowledgement and the trailing checksum, raw payload bytes. *)
Inductive item : Type :=
| Raw (b : byte)
| Frame (e : envelope).

(** Errors reported by [MessageHandler.Receive] and by reads of raw bytes. *)
Inductive rerr : Type :=
| EOF
| Malformed.

Inductive result (A E : Type) : Type :=
| Ok (a : A)
| Err (e : E).
Arguments Ok {A E} a.
Arguments Err {A E} e.

(** The error values returned by the handlers and the client operations,
    one constructor per [return fmt.Errorf(...)] / [errors.New(...)] site. *)
Inductive herr : Type :=
(* server side *)
| SOpen (name msg : string)             (* "open %q: %w" *)
| SReceivingData (e : rerr)             (* "receiving data: %w" *)
| SReceivingChecksum (e : rerr)         (* "receiving checksum: %w" *)
| SChecksumMismatch                     (* "checksum mismatch — file removed" *)
| SStat (name msg : string)             (* "stat %q: %w" *)
(* client side *)
| CStatFailed (msg : string)            (* "stat failed: %w" *)
| CRejectedStorage                      (* "server rejected storage request" *)
| COpenFailed (msg : string)            (* "failed to open file: %w" *)
| CVerificationFailed                   (* "checksum verification failed" *)
| CCreateFailed (msg : string)          (* "failed to create file: %w" *)
| CRejectedRetrieval                    (* "server rejected retrieval request" *)
| CTransferFailed (e : rerr)            (* "transfer failed: %w" *)
| CChecksumMismatch.                    (* "checksum mismatch — corrupt transfer, file removed" *)

(** ** Programs: channel and filesystem calls as a free monad *)

Inductive prog (A : Type) : Type :=
| Ret (a : A)
| Panic (why : string)
(** write items to the connection *)
| Send (its : list item) (k : prog A)
(** [MessageHandler.Receive] *)
| RecvMsg (k : result envelope rerr -> prog A)
(** [io.CopyN(_, msgHandler, n)]: the bytes copied and the error *)
| RecvRaw (n : Z) (k : list byte -> option rerr -> prog A)
(** [os.OpenFile(name, O_CREATE|O_EXCL|O_WRONLY, 0666)]: [None] on success *)
| OpenExcl (name : string) (k : option string -> prog A)
(** [os.Stat(name)]: the size on success *)
| Stat (name : string) (k : result N string -> prog A)
(** [os.Open(name)] followed by reading the whole file *)
| OpenRead (name : string) (k : result (list byte) string -> prog A)
(** writes to the open handle of [name] *)
| Write (name : string) (bs : list byte) (k : prog A)
(** [os.Remove(name)] *)
| Remove (name : string) (k : prog A).

Arguments Ret {A} a.
Arguments Panic {A} why.
Arguments Send {A} its k.
Arguments RecvMsg {A} k.
Arguments RecvRaw {A} n k.
Arguments OpenExcl {A} name k.
Arguments Stat {A} name k.
Arguments OpenRead {A} name k.
Arguments Write {A} name bs k.
Arguments Remove {A} name k.

Fixpoint bind {A B : Type} (m : prog A) (f : A -> prog B) : prog B :=
  match m with
  | Ret a => f a
  | Panic w => Panic w
  | Send its k => Send its (bind k f)
  | RecvMsg k => RecvMsg (fun r => bind (k r) f)
  | RecvRaw n k => RecvRaw n (fun bs e => bind (k bs e) f)
  | OpenExcl nm k => OpenExcl nm (fun r => bind (k r) f)
  | Stat nm k => Stat nm (fun r => bind (k r) f)
  | OpenRead nm k => OpenRead nm (fun r => bind (k r) f)
  | Write nm bs k => Write nm bs (bind k f)
  | Remove nm k => Remove nm (bind k f)
  end.

Declare Scope prog_scope.
Delimit Scope prog_scope with prog.
Notation "x <-- m ;; k" := (bind m (fun x => k))
  (at level 62, m at next level, right associativity) : prog_scope.
Notation "m ;;; k" := (bind m (fun _ => k))
  (at level 62, right associativity) : prog_scope.
Open Scope prog_scope.

(** ** Filesystem *)

(** The directory the process works in: file contents by name, and the
    names for which the operating system refuses an exclusive create, a
    stat or an open for another reason than existence (permissions, a
    missing parent directory, ...), with the error text it reports. *)
Record fsys : Type := mkFs {
  files : gmap string (list byte);
  create_err : string -> option string;
  stat_err : string -> option string;
  open_err : string -> option string
}.

Definition set_files (fs : fsys) (m : gmap string (list byte)) : fsys :=
  mkFs m (create_err fs) (stat_err fs) (open_err fs).

Definition fs_create (fs : fsys) (n : string) : option string * fsys :=
  match create_err fs n with
  | Some m => (Some m, fs)
  | None =>
      match files fs !! n with
      | Some _ => (Some (String.append "open " (String.append n ": file exists")), fs)
      | None => (None, set_files fs (<[n := []]> (files fs)))
      end
  end.

Definition fs_stat (fs : fsys) (n : string) : result N string :=
  match stat_err fs n with
  | Some m => Err m
  | None =>
      match files fs !! n with
      | Some c => Ok (N.of_nat (List.length c))
      | None => Err (String.append "stat " (String.append n ": no such file or directory"))
      end
  end.

Definition fs_read (fs : fsys) (n : string) : result (list byte) string :=
  match open_err fs n with
  | Some m => Err m
  | None =>
      match files fs !! n with
      | Some c => Ok c
      | None => Err (String.append "open " (String.append n ": no such file or directory"))
      end
  end.

(** A write through the handle appends; once the name has been removed the
    bytes go to the unlinked inode and are not visible any more. *)
Definition fs_write (fs : fsys) (n : string) (bs : list byte) : fsys :=
  match files fs !! n with
  | Some c => set_files fs (<[n := c ++ bs]> (files fs))
  | None => fs
  end.

Definition fs_remove (fs : fsys) (n : string) : fsys :=
  set_files fs (delete n (files fs)).

(** ** Framed channel *)

(** Modelled from the spec: [MessageHandler.Receive] of the missing
    [messages] package.  A frame decodes to its envelope; a stream closed
    with nothing pending is [EOF]; bytes that are not a frame are a
    malformed frame.  [None]: nothing has arrived yet and the peer is still
    connected, so the call blocks. *)
Definition receive (closed : bool) (inp : list item) : option (result envelope rerr * list item) :=
  match inp with
  | [] => if closed then Some (Err EOF, []) else None
  | Frame e :: r => Some (Ok e, r)
  | Raw _ :: r => Some (Err Malformed, r)
  end.

(** Reading raw payload bytes through [MessageHandler]'s reader: [k] bytes
    at most, stopping at end of stream. [None]: blocks for more input. The
    model keeps frames apart from payload bytes, so a frame met inside the
    payload ends the copy with [Malformed], where the real reader, for which
    the size is the only delimiter, would read the frame's bytes as
    payload. *)
Fixpoint copy_raw (k : nat) (closed : bool) (inp : list item)
  : option (list byte * option rerr * list item) :=
  match k with
  | O => Some ([], None, inp)
  | S k' =>
      match inp with
      | [] => if closed then Some ([], Some EOF, []) else None
      | Raw b :: r =>
          match copy_raw k' closed r with
          | Some (bs, e, r') => Some (b :: bs, e, r')
          | None => None
          end
      | Frame _ :: _ => Some ([], Some Malformed, inp)
      end
  end.

(** [io.CopyN(dst, src, n)]: [Copy(dst, LimitReader(src, n))]; for [n <= 0]
    the limited reader is at EOF at once, nothing is written and, as
    [written == 0] is neither [== n] nor [< n], the error is [nil]. *)
Definition copyN (n : Z) (closed : bool) (inp : list item)
  : option (list byte * option rerr * list item) :=
  if n <=? 0 then Some ([], None, inp) else copy_raw (Z.to_nat n) closed inp.

(** Go's conversion [int64(x)] of a [uint64] value: two's complement wrap. *)
Definition int64_of_uint64 (x : N) : Z :=
  let y := Z.of_N x mod 2 ^ 64 in
  if y <? 2 ^ 63 then y else y - 2 ^ 64.

(** ** Running a program *)

Inductive event : Type :=
| EvSend (its : list item)
| EvRecvMsg (r : result envelope rerr)
| EvRecvRaw (bs : list byte) (e : option rerr)
| EvCreate (name : string) (r : option string)
| EvStat (name : string)
| EvOpen (name : string)
| EvWrite (name : string) (bs : list byte)
| EvRemove (name : string).

(** One end of a connection: its filesystem, the items received and not
    yet read, the items sent and not yet delivered, and the log of the
    calls made, newest first. *)
Record side : Type := mkSide {
  sfs : fsys;
  sinp : list item;
  sout : list item;
  slog : list event
}.

Inductive status (A : Type) : Type :=
| Done (a : A)
| Panicked (why : string)
| Pending (p : prog A).
Arguments Done {A} a.
Arguments Panicked {A} why.
Arguments Pending {A} p.

(** Run [p] until it returns, panics, or waits for input that has not
    arrived; [closed] says whether the peer has closed the connection. *)
Fixpoint exec {A : Type} (closed : bool) (p : prog A) (s : side) : status A * side :=
  match p with
  | Ret a => (Done a, s)
  | Panic w => (Panicked w, s)
  | Send its k =>
      exec closed k (mkSide (sfs s) (sinp s) (sout s ++ its) (EvSend its :: slog s))
  | RecvMsg k =>
      match receive closed (sinp s) with
      | Some (r, rest) => exec closed (k r) (mkSide (sfs s) rest (sout s) (EvRecvMsg r :: slog s))
      | None => (Pending p, s)
      end
  | RecvRaw n k =>
      match copyN n closed (sinp s) with
      | Some (bs, e, rest) =>
          exec closed (k bs e) (mkSide (sfs s) rest (sout s) (EvRecvRaw bs e :: slog s))
      | None => (Pending p, s)
      end
  | OpenExcl nm k =>
      let (r, fs') := fs_create (sfs s) nm in
      exec closed (k r) (mkSide fs' (sinp s) (sout s) (EvCreate nm r :: slog s))
  | Stat nm k =>
      exec closed (k (fs_stat (sfs s) nm)) (mkSide (sfs s) (sinp s) (sout s) (EvStat nm :: slog s))
  | OpenRead nm k =>
      exec closed (k (fs_read (sfs s) nm)) (mkSide (sfs s) (sinp s) (sout s) (EvOpen nm :: slog s))
  | Write nm bs k =>
      exec closed k (mkSide (fs_write (sfs s) nm bs) (sinp s) (sout s) (EvWrite nm bs :: slog s))
  | Remove nm k =>
      exec closed k (mkSide (fs_remove (sfs s) nm) (sinp s) (sout s) (EvRemove nm :: slog s))
  end.

(** ** [MessageHandler] and [util] calls *)

(** Modelled from the spec: the [MessageHandler] methods of the missing
    [messages] package, each sending or receiving one framed envelope. *)
Definition Receive : prog (result envelope rerr) := RecvMsg Ret.

Definition SendResponse (ok : bool) (message : string) : prog unit :=
  Send [Frame (EResponse ok message)] (Ret tt).

Definition SendRetrievalResponse (ok : bool) (message : string) (size : N) : prog unit :=
  Send [Frame (ERetrievalResp ok message size)] (Ret tt).

Definition SendChecksumVerification (checksum : list byte) : prog unit :=
  Send [Frame (EChecksum checksum)] (Ret tt).

Definition SendStorageRequest (fileName : string) (size : N) : prog unit :=
  Send [Frame (EStorageReq fileName size)] (Ret tt).

Definition SendRetrievalRequest (fileName : string) : prog unit :=
  Send [Frame (ERetrievalReq fileName)] (Ret tt).

(** Modelled from the spec: the fields of the received [Response]; like the
    protobuf getters, anything else reads as [ok = false]. *)
Definition ReceiveResponse : prog (bool * string) :=
  w <-- Receive ;;
  Ret (match w with
       | Ok (EResponse ok m) => (ok, m)
       | _ => (false, ""%string)
       end).

Definition ReceiveRetrievalResponse : prog (bool * string * N) :=
  w <-- Receive ;;
  Ret (match w with
       | Ok (ERetrievalResp ok m size) => (ok, m, size)
       | _ => (false, ""%string, 0%N)
       end).

(** [io.CopyN(io.MultiWriter(file, h), msgHandler, n)] on the reading side. *)
Definition CopyN (n : Z) : prog (list byte * option rerr) :=
  RecvRaw n (fun bs e => Ret (bs, e)).

(** [w.GetChecksum().Checksum]: the getter yields [nil] unless the envelope
    is a [ChecksumMessage], and reading a field through [nil] panics. *)
Definition GetChecksum (w : result envelope rerr) : prog (list byte) :=
  match w with
  | Ok (EChecksum c) => Ret c
  | _ => Panic "invalid memory address or nil pointer dereference"%string
  end.

(** Modelled from the spec: [util.VerifyChecksum], a byte-for-byte
    comparison of two digests. *)
Fixpoint VerifyChecksum (a b : list byte) : bool :=
  match a, b with
  | [], [] => true
  | x :: a', y :: b' => Byte.eqb x y && VerifyChecksum a' b'
  | _, _ => false
  end.

(** ** Client ([src/unnamed/part_000]) *)

Module Client.
Section Client.

(** The digest, [md5.New()] fed the payload and finalised with [Sum(nil)]. *)
Variable md5 : list byte -> list byte.

Definition put (fileName : string) : prog (result unit herr) :=
  info <-- Stat fileName Ret ;;
  match info with
  | Err m => Ret (Err (CStatFailed m))
  | Ok size =>
      SendStorageRequest fileName size ;;;
      r <-- ReceiveResponse ;;
      if negb (fst r) then Ret (Err CRejectedStorage) else
      file <-- OpenRead fileName Ret ;;
      match file with
      | Err m => Ret (Err (COpenFailed m))
      | Ok data =>
          (* io.Copy(io.MultiWriter(msgHandler, h), file): reading the file
             and writing the connection are taken not to fail, so the
             "transfer failed" error return is not modelled *)
          Send (map Raw data) (Ret tt) ;;;
          SendChecksumVerification (md5 data) ;;;
          r2 <-- ReceiveResponse ;;
          if negb (fst r2) then Ret (Err CVerificationFailed) else
          Ret (Ok tt)
      end
  end.

Definition get (fileName : string) : prog (result unit herr) :=
  c <-- OpenExcl fileName Ret ;;
  match c with
  | Some m => Ret (Err (CCreateFailed m))
  | None =>
      SendRetrievalRequest fileName ;;;
      rr <-- ReceiveRetrievalResponse ;;
      let '(ok, _, size) := rr in
      if negb ok then Ret (Err CRejectedRetrieval) else
      cp <-- CopyN (int64_of_uint64 size) ;;
      let '(bs, e) := cp in
      Write fileName bs (Ret tt) ;;;
      match e with
      | Some err => Ret (Err (CTransferFailed err))
      | None =>
          checkMsg <-- Receive ;;          (* checkMsg, _ := msgHandler.Receive() *)
          serverCheck <-- GetChecksum checkMsg ;;
          if VerifyChecksum serverCheck (md5 bs) then Ret (Ok tt)
          else Remove fileName (Ret tt) ;;; Ret (Err CChecksumMismatch)
      end
  end.

End Client.
End Client.

(** ** Server [src/server/server_saloni.go] *)

Module ServerSaloni.
Section Server.

Variable md5 : list byte -> list byte.

Definition handleStorage (fileName : string) (size : N) : prog (result unit herr) :=
  c <-- OpenExcl fileName Ret ;;
  match c with
  | Some m => SendResponse false m ;;; Ret (Err (SOpen fileName m))
  | None =>
      SendResponse true "Ready for data" ;;;
      cp <-- CopyN (int64_of_uint64 size) ;;
      let '(bs, e) := cp in
      Write fileName bs (Ret tt) ;;;
      match e with
      | Some err => Remove fileName (Ret tt) ;;; Ret (Err (SReceivingData err))
      | None =>
          w <-- Receive ;;
          match w with
          | Err err => Remove fileName (Ret tt) ;;; Ret (Err (SReceivingChecksum err))
          | Ok _ =>
              clientCheck <-- GetChecksum w ;;
              if negb (VerifyChecksum (md5 bs) clientCheck) then
                Remove fileName (Ret tt) ;;;
                SendResponse false "Checksum mismatch" ;;;
                Ret (Err SChecksumMismatch)
              else
                SendResponse true "File stored successfully" ;;;
                Ret (Ok tt)
          end
      end
  end.

Definition handleRetrieval (fileName : string) : prog (result unit herr) :=
  info <-- Stat fileName Ret ;;
  match info with
  | Err m => SendRetrievalResponse false m 0 ;;; Ret (Err (SStat fileName m))
  | Ok size =>
      file <-- OpenRead fileName Ret ;;
      match file with
      | Err m => SendRetrievalResponse false m 0 ;;; Ret (Err (SOpen fileName m))
      | Ok data =>
          SendRetrievalResponse true "Ready to send" size ;;;
          (* io.Copy(io.MultiWriter(msgHandler, h), file): reading the file
             and writing the connection are taken not to fail, so the
             "sending data" error return is not modelled *)
          Send (map Raw data) (Ret tt) ;;;
          SendChecksumVerification (md5 data) ;;;
          Ret (Ok tt)
      end
  end.

(** The [for] loop of [handleClient], unrolled [fuel] times (every pass
    reads at least one item, so an input of [n] items needs [n + 1]);
    returning closes the connection. Handler errors are only logged. *)
Fixpoint handleClient (fuel : nat) : prog unit :=
  match fuel with
  | O => Ret tt
  | S fuel' =>
      wrapper <-- Receive ;;
      match wrapper with
      | Err _ => Ret tt
      | Ok (EStorageReq n sz) => handleStorage n sz ;;; handleClient fuel'
      | Ok (ERetrievalReq n) => handleRetrieval n ;;; handleClient fuel'
      | Ok EEmpty => Ret tt
      | Ok _ => handleClient fuel'
      end
  end.

End Server.
End ServerSaloni.

(** ** Server [src/server/saloni_server.go] *)

(** [strings.Split(s, "/")]. *)
Fixpoint split_slash (s : string) : list string :=
  match s with
  | EmptyString => [EmptyString]
  | String c r =>
      let parts := split_slash r in
      if Ascii.eqb c "/"%char then EmptyString :: parts
      else match parts with
           | p :: ps => String c p :: ps
           | [] => [String c EmptyString]
           end
  end.

(** [splitList[len(splitList)-1]]. *)
Definition last_part (s : string) : string := List.last (split_slash s) EmptyString.

Module SaloniServer.
Section Server.

Variable md5 : list byte -> list byte.

Definition handleStorage (requestFileName : string) (size : N) : prog (result unit herr) :=
  let fileName := last_part requestFileName in
  c <-- OpenExcl fileName Ret ;;
  match c with
  | Some m => SendResponse false m ;;; Ret (Err (SOpen fileName m))
  | None =>
      SendResponse true "Ready for data" ;;;
      cp <-- CopyN (int64_of_uint64 size) ;;
      let '(bs, e) := cp in
      Write fileName bs (Ret tt) ;;;
      match e with
      | Some err => Remove fileName (Ret tt) ;;; Ret (Err (SReceivingData err))
      | None =>
          w <-- Receive ;;
          match w with
          | Err err => Remove fileName (Ret tt) ;;; Ret (Err (SReceivingChecksum err))
          | Ok _ =>
              clientCheck <-- GetChecksum w ;;
              if negb (VerifyChecksum (md5 bs) clientCheck) then
                Remove fileName (Ret tt) ;;;
                SendResponse false "Checksum mismatch" ;;;
                Ret (Err SChecksumMismatch)
              else
                SendResponse true "File stored successfully" ;;;
                Ret (Ok tt)
          end
      end
  end.

Definition handleRetrieval (fileName : string) : prog (result unit herr) :=
  info <-- Stat fileName Ret ;;
  match info with
  | Err m => SendRetrievalResponse false m 0 ;;; Ret (Err (SStat fileName m))
  | Ok size =>
      file <-- OpenRead fileName Ret ;;
      match file with
      | Err m => SendRetrievalResponse false m 0 ;;; Ret (Err (SOpen fileName m))
      | Ok data =>
          SendRetrievalResponse true "Ready to send" size ;;;
          (* io.Copy(io.MultiWriter(msgHandler, h), file): reading the file
             and writing the connection are taken not to fail, so the
             "sending data" error return is not modelled *)
          Send (map Raw data) (Ret tt) ;;;
          SendChecksumVerification (md5 data) ;;;
          Ret (Ok tt)
      end
  end.

Fixpoint handleClient (fuel : nat) : prog unit :=
  match fuel with
  | O => Ret tt
  | S fuel' =>
      wrapper <-- Receive ;;
      match wrapper with
      | Err _ => Ret tt
      | Ok (EStorageReq n sz) => handleStorage n sz ;;; handleClient fuel'
      | Ok (ERetrievalReq n) => handleRetrieval n ;;; handleClient fuel'
      | Ok EEmpty => Ret tt
      | Ok _ => handleClient fuel'
      end
  end.

End Server.
End SaloniServer.

(** ** One connection between a client and a server *)

Definition finished {A : Type} (st : status A) : bool :=
  match st with Pending _ => false | _ => true end.

(** Run one end if it is waiting; a finished end has closed the connection. *)
Definition step {A : Type} (peer_closed : bool) (st : status A) (s : side) : status A * side :=
  match st with
  | Pending p => exec peer_closed p s
  | _ => (st, s)
  end.

(** Hand the items [from] has sent to [to]. *)
Definition deliver (from to : side) : side * side :=
  (mkSide (sfs from) (sinp from) [] (slog from),
   mkSide (sfs to) (sinp to ++ sout from) (sout to) (slog to)).

(** Alternate the two ends, client first, for [fuel] rounds. *)
Fixpoint connect {A B : Type} (fuel : nat) (sc : status A) (c : side) (ss : status B) (s : side)
  : status A * side * status B * side :=
  match fuel with
  | O => (sc, c, ss, s)
  | S f =>
      let (sc1, c1) := step (finished ss) sc c in
      let (c2, s1) := deliver c1 s in
      let (ss1, s2) := step (finished sc1) ss s1 in
      let (s3, c3) := deliver s2 c2 in
      connect f sc1 c3 ss1 s3
  end.

(** A fresh end of a connection working in directory [fs]. *)
Definition new_side (fs : fsys) : side := mkSide fs [] [] [].

(** ** Predicates on names and input streams *)

(** The name has no '/' in it. *)
Definition no_slash (name : string) : bool :=
  forallb (fun c => negb (Ascii.eqb c "/"%char)) (list_ascii_of_string name).

(** Every StorageRequest among the items names a file without '/'. *)
Definition storage_names_plain (inp : list item) : bool :=
  forallb (fun it => match it with Frame (EStorageReq n _) => no_slash n | _ => true end) inp.

(** No StorageRequest among the items. *)
Definition storage_free (inp : list item) : bool :=
  forallb (fun it => match it with Frame (EStorageReq _ _) => false | _ => true end) inp.

(** ** Names reaching the filesystem *)

(** The file a logged call addresses, for filesystem calls. *)
Definition ev_file (ev : event) : option string :=
  match ev with
  | EvCreate n _ | EvStat n | EvOpen n | EvWrite n _ | EvRemove n => Some n
  | _ => None
  end.

(** A logged event is no filesystem call, or one addressing [n]. *)
Definition addresses_only (n : string) (ev : event) : Prop :=
  ev_file ev = None \/ ev_file ev = Some n.

(** Every filesystem call [p] can make, on every path, addresses [n]. *)
Fixpoint fs_calls_on {A : Type} (n : string) (p : prog A) : Prop :=
  match p with
  | Ret _ | Panic _ => True
  | Send _ k => fs_calls_on n k
  | RecvMsg k => forall r, fs_calls_on n (k r)
  | RecvRaw _ k => forall bs e, fs_calls_on n (k bs e)
  | OpenExcl m k => m = n /\ forall r, fs_calls_on n (k r)
  | Stat m k => m = n /\ forall r, fs_calls_on n (k r)
  | OpenRead m k => m = n /\ forall r, fs_calls_on n (k r)
  | Write m _ k => m = n /\ fs_calls_on n k
  | Remove m k => m = n /\ fs_calls_on n k
  end.

(** ** Sample data for concrete runs *)

(** A stand-in digest for concrete runs (the properties hold for every
    digest function). *)
Definition sample_digest (bs : list byte) : list byte := firstn 2 bs.

Definition no_err : string -> option string := fun _ => None.

(** A directory with nothing in it and no access restrictions. *)
Definition empty_fs : fsys := mkFs ∅ no_err no_err no_err.

(** A directory holding "a.txt" with the 5 bytes "hello". *)
Definition hello : list byte := [Byte.x68; Byte.x65; Byte.x6c; Byte.x6c; Byte.x6f].
Definition hello_fs : fsys := mkFs (<["a.txt"%string := hello]> ∅) no_err no_err no_err.

(** A client's part of a storage exchange of [hello]: the payload, then its
    checksum under [sample_digest]. *)
Definition hello_upload : list item := map Raw hello ++ [Frame (EChecksum (sample_digest hello))].

(** The same payload with a checksum that does not match it. *)
Definition bad_upload : list item := map Raw hello ++ [Frame (EChecksum [])].

(** The payload followed by a RetrievalRequest where the checksum belongs. *)
Definition panic_upload : list item := map Raw hello ++ [Frame (ERetrievalReq "b.txt")].

(** The two replies of a server that accepts a storage exchange. *)
Definition two_oks : list item :=
  [Frame (EResponse true "Ready for data"); Frame (EResponse true "File stored successfully")].

(** A server's part of a retrieval exchange of [hello]. *)
Definition hello_download : list item :=
  Frame (ERetrievalResp true "Ready to send" 5) :: hello_upload.

(** * Properties *)

(** ** Channel and conversion lemmas *)

Lemma int64_of_uint64_small (n : nat) :
  Z.of_nat n < 2 ^ 63 -> int64_of_uint64 (N.of_nat n) = Z.of_nat n.
Proof.
  intros H. unfold int64_of_uint64.
  rewrite nat_N_Z, Z.mod_small by lia.
  destruct (Z.ltb_spec (Z.of_nat n) (2 ^ 63)); lia.
Qed.

Lemma int64_of_uint64_large (x : N) :
  (2 ^ 63 <= Z.of_N x < 2 ^ 64) -> int64_of_uint64 x < 0.
Proof.
  intros H. unfold int64_of_uint64.
  rewrite Z.mod_small by lia.
  destruct (Z.ltb_spec (Z.of_N x) (2 ^ 63)); lia.
Qed.

Lemma copy_raw_full (bs : list byte) (closed : bool) (rest : list item) :
  copy_raw (List.length bs) closed (map Raw bs ++ rest) = Some (bs, None, rest).
Proof.
  induction bs as [|b bs IH]; simpl; [reflexivity|].
  rewrite IH. reflexivity.
Qed.

Lemma copyN_full (bs : list byte) (closed : bool) (rest : list item) :
  copyN (Z.of_nat (List.length bs)) closed (map Raw bs ++ rest) = Some (bs, None, rest).
Proof.
  unfold copyN. destruct bs as [|b bs']; [reflexivity|].
  rewrite Nat2Z.id. simpl (Z.of_nat _ <=? 0).
  replace (Z.of_nat (List.length (b :: bs')) <=? 0) with false
    by (symmetry; apply Z.leb_gt; simpl; lia).
  apply copy_raw_full.
Qed.

(** Reading [n] raw bytes from a stream that ends after fewer of them. *)
Lemma copy_raw_short (bs : list byte) (k : nat) :
  (List.length bs < k)%nat ->
  copy_raw k true (map Raw bs) = Some (bs, Some EOF, []).
Proof.
  revert k. induction bs as [|b bs IH]; intros k Hk; destruct k as [|k]; simpl in *; try lia.
  - reflexivity.
  - rewrite IH by lia. reflexivity.
Qed.

Lemma copyN_waits (n : Z) : 0 < n -> copyN n false [] = None.
Proof.
  intros H. unfold copyN. destruct (Z.leb_spec n 0); [lia|].
  destruct (Z.to_nat n) eqn:E; [lia|reflexivity].
Qed.

Lemma VerifyChecksum_refl (a : list byte) : VerifyChecksum a a = true.
Proof.
  induction a as [|x a IH]; simpl; [reflexivity|].
  rewrite (Byte.byte_dec_lb (eq_refl x)), IH. reflexivity.
Qed.

Lemma VerifyChecksum_eq (a b : list byte) : VerifyChecksum a b = true <-> a = b.
Proof.
  split.
  - revert b. induction a as [|x a IH]; intros [|y b]; simpl; try discriminate; [reflexivity|].
    intros H. apply andb_true_iff in H as [H1 H2].
    apply Byte.byte_dec_bl in H1. f_equal; auto.
  - intros ->. apply VerifyChecksum_refl.
Qed.

(** Running a program sequenced with [bind]. *)
Lemma exec_bind {A B : Type} (closed : bool) (m : prog A) (f : A -> prog B) (s : side) :
  exec closed (bind m f) s =
  match exec closed m s with
  | (Done a, s1) => exec closed (f a) s1
  | (Panicked w, s1) => (Panicked w, s1)
  | (Pending m', s1) => (Pending (bind m' f), s1)
  end.
Proof.
  revert s. induction m as [a|w|its k IH|k IH|n k IH|nm k IH|nm k IH|nm k IH|nm bs k IH|nm k IH];
    intros s; cbn.
  - reflexivity.
  - reflexivity.
  - apply IH.
  - destruct (receive closed (sinp s)) as [[r rest]|]; [apply IH|reflexivity].
  - destruct (copyN n closed (sinp s)) as [[[bs e] rest]|]; [apply IH|reflexivity].
  - destruct (fs_create (sfs s) nm) as [r fs']. apply IH.
  - apply IH.
  - apply IH.
  - apply IH.
  - apply IH.
Qed.

(** The log only grows, newest events first. *)
Lemma exec_log_extends {A : Type} (closed : bool) (p : prog A) (s : side) :
  exists post, slog (snd (exec closed p s)) = post ++ slog s.
Proof.
  revert s. induction p as [a|w|its k IH|k IH|n k IH|nm k IH|nm k IH|nm k IH|nm bs k IH|nm k IH];
    intros s; cbn.
  - exists []. reflexivity.
  - exists []. reflexivity.
  - destruct (IH (mkSide (sfs s) (sinp s) (sout s ++ its) (EvSend its :: slog s))) as [post Hp].
    exists (post ++ [EvSend its]). rewrite Hp, <- app_assoc. reflexivity.
  - destruct (receive closed (sinp s)) as [[r rest]|]; [|exists []; reflexivity].
    destruct (IH r (mkSide (sfs s) rest (sout s) (EvRecvMsg r :: slog s))) as [post Hp].
    exists (post ++ [EvRecvMsg r]). rewrite Hp, <- app_assoc. reflexivity.
  - destruct (copyN n closed (sinp s)) as [[[bs e] rest]|]; [|exists []; reflexivity].
    destruct (IH bs e (mkSide (sfs s) rest (sout s) (EvRecvRaw bs e :: slog s))) as [post Hp].
    exists (post ++ [EvRecvRaw bs e]). rewrite Hp, <- app_assoc. reflexivity.
  - destruct (fs_create (sfs s) nm) as [r fs'].
    destruct (IH r (mkSide fs' (sinp s) (sout s) (EvCreate nm r :: slog s))) as [post Hp].
    exists (post ++ [EvCreate nm r]). rewrite Hp, <- app_assoc. reflexivity.
  - destruct (IH (fs_stat (sfs s) nm) (mkSide (sfs s) (sinp s) (sout s) (EvStat nm :: slog s)))
      as [post Hp].
    exists (post ++ [EvStat nm]). rewrite Hp, <- app_assoc. reflexivity.
  - destruct (IH (fs_read (sfs s) nm) (mkSide (sfs s) (sinp s) (sout s) (EvOpen nm :: slog s)))
      as [post Hp].
    exists (post ++ [EvOpen nm]). rewrite Hp, <- app_assoc. reflexivity.
  - destruct (IH (mkSide (fs_write (sfs s) nm bs) (sinp s) (sout s) (EvWrite nm bs :: slog s)))
      as [post Hp].
    exists (post ++ [EvWrite nm bs]). rewrite Hp, <- app_assoc. reflexivity.
  - destruct (IH (mkSide (fs_remove (sfs s) nm) (sinp s) (sout s) (EvRemove nm :: slog s)))
      as [post Hp].
    exists (post ++ [EvRemove nm]). rewrite Hp, <- app_assoc. reflexivity.
Qed.

Ltac in_log := cbn; repeat (first [left; reflexivity | right]).

Ltac fs_calls_solve :=
  repeat first
    [ exact I
    | progress cbn
    | split; [reflexivity|]
    | intros [?|?]
    | intros [[? ?] ?]
    | intros [? ?]
    | intro
    | match goal with |- context [if ?b then _ else _] => destruct b end
    | match goal with x : envelope |- _ => destruct x end
    | match goal with x : option _ |- _ => destruct x end ].


(** ** C1: store then retrieve reproduces the payload *)

(** C1. A client [put] of a file holding [B] against a [server_saloni]
    connection, followed by a client [get] of the same name on a second
    connection (into a download directory without that name), both succeed;
    the server then holds [B], the downloaded file holds [B], and on each
    leg the receiver hashed exactly the bytes [B] whose digest [md5 B] the
    sender put in its trailing checksum. The preconditions are those of a
    successful exchange: the name is free on the server and in the download
    directory, the files are accessible, and the payload is a real file
    (its [int64] size below [2^63]). *)
Theorem store_then_retrieve (md5 : list byte -> list byte) (fsC fsS fsD : fsys)
    (name : string) (B : list byte) (fuel : nat) :
  files fsC !! name = Some B -> stat_err fsC name = None -> open_err fsC name = None ->
  Z.of_nat (List.length B) < 2 ^ 63 ->
  files fsS !! name = None -> create_err fsS name = None ->
  stat_err fsS name = None -> open_err fsS name = None ->
  files fsD !! name = None -> create_err fsD name = None ->
  (2 <= fuel)%nat ->
  exists c1 s1 c2 s2,
    connect 3 (Pending (Client.put md5 name)) (new_side fsC)
              (Pending (ServerSaloni.handleClient md5 fuel)) (new_side fsS)
      = (Done (Ok tt), c1, Done tt, s1) /\
    connect 3 (Pending (Client.get md5 name)) (new_side fsD)
              (Pending (ServerSaloni.handleClient md5 fuel)) (new_side (sfs s1))
      = (Done (Ok tt), c2, Done tt, s2) /\
    files (sfs s1) !! name = Some B /\
    files (sfs c2) !! name = Some B /\
    In (EvSend [Frame (EChecksum (md5 B))]) (slog c1) /\
    In (EvRecvRaw B None) (slog s1) /\
    In (EvSend [Frame (EChecksum (md5 B))]) (slog s2) /\
    In (EvRecvRaw B None) (slog c2).
Proof.
  intros HC HCs HCo Hlen HS HSc HSs HSo HD HDc Hfuel.
  destruct fuel as [|[|fuel]]; [lia|lia|].
  assert (E1 : fs_stat fsC name = Ok (N.of_nat (List.length B)))
    by (unfold fs_stat; rewrite HCs, HC; reflexivity).
  assert (E2 : fs_read fsC name = Ok B) by (unfold fs_read; rewrite HCo, HC; reflexivity).
  assert (E3 : fs_create fsS name = (None, set_files fsS (<[name := []]> (files fsS))))
    by (unfold fs_create; rewrite HSc, HS; reflexivity).
  assert (E4 : int64_of_uint64 (N.of_nat (List.length B)) = Z.of_nat (List.length B))
    by (apply int64_of_uint64_small; exact Hlen).
  assert (E5 : copyN (Z.of_nat (List.length B)) false [] =
                if (List.length B =? 0)%nat then Some ([], None, []) else None).
  { destruct (Nat.eqb_spec (List.length B) 0) as [->|Hn]; [reflexivity|].
    apply copyN_waits; lia. }
  assert (E6 : forall rest, copyN (Z.of_nat (List.length B)) false (map Raw B ++ rest) = Some (B, None, rest))
    by (intros; apply copyN_full).
  assert (E7 : fs_write (set_files fsS (<[name := []]> (files fsS))) name B
               = set_files fsS (<[name := B]> (files fsS))).
  { unfold fs_write. cbn. rewrite lookup_insert_eq. cbn. rewrite insert_insert_eq. reflexivity. }
  assert (E8 : fs_stat (set_files fsS (<[name := B]> (files fsS))) name = Ok (N.of_nat (List.length B))).
  { unfold fs_stat. cbn. rewrite HSs, lookup_insert_eq. reflexivity. }
  assert (E9 : fs_read (set_files fsS (<[name := B]> (files fsS))) name = Ok B).
  { unfold fs_read. cbn. rewrite HSo, lookup_insert_eq. reflexivity. }
  assert (E10 : fs_create fsD name = (None, set_files fsD (<[name:=[]]> (files fsD))))
    by (unfold fs_create; rewrite HDc, HD; reflexivity).
  assert (E11 : fs_write (set_files fsD (<[name := []]> (files fsD))) name B
               = set_files fsD (<[name := B]> (files fsD))).
  { unfold fs_write. cbn. rewrite lookup_insert_eq. cbn. rewrite insert_insert_eq. reflexivity. }
  destruct (Nat.eqb_spec (List.length B) 0) as [H0|H0].
  - destruct B; [|discriminate].
    assert (F1 : int64_of_uint64 (N.of_nat 0) = 0) by reflexivity.
    assert (F2 : forall c l, copyN 0 c l = Some ([], None, l)) by reflexivity.
    cbn in E1, E8.
    eexists _, _, _, _. split; [|split].
    + repeat progress (cbn; rewrite ?E1, ?E2, ?E3, ?F1, ?F2, ?E7, ?E8, ?E9, ?E10, ?E11,
                     ?VerifyChecksum_refl). reflexivity.
    + repeat progress (cbn; rewrite ?E1, ?E2, ?E3, ?F1, ?F2, ?E7, ?E8, ?E9, ?E10, ?E11,
                     ?VerifyChecksum_refl). reflexivity.
    + cbn. rewrite !lookup_insert_eq. split; [reflexivity|]. split; [reflexivity|].
      repeat split; in_log.
  - eexists _, _, _, _. split; [|split].
    + repeat progress (cbn; rewrite ?E1, ?E2, ?E3, ?E4, ?E5, ?E6, ?E7, ?E8, ?E9, ?E10, ?E11,
                     ?VerifyChecksum_refl). reflexivity.
    + repeat progress (cbn; rewrite ?E1, ?E2, ?E3, ?E4, ?E5, ?E6, ?E7, ?E8, ?E9, ?E10, ?E11,
                     ?VerifyChecksum_refl). reflexivity.
    + cbn. rewrite !lookup_insert_eq. split; [reflexivity|]. split; [reflexivity|].
      repeat split; in_log.
Qed.

Lemma store_then_retrieve_witness :
  exists c1 s1 c2 s2,
    connect 3 (Pending (Client.put sample_digest "a.txt")) (new_side hello_fs)
              (Pending (ServerSaloni.handleClient sample_digest 2)) (new_side empty_fs)
      = (Done (Ok tt), c1, Done tt, s1) /\
    connect 3 (Pending (Client.get sample_digest "a.txt")) (new_side empty_fs)
              (Pending (ServerSaloni.handleClient sample_digest 2)) (new_side (sfs s1))
      = (Done (Ok tt), c2, Done tt, s2) /\
    files (sfs s1) !! "a.txt"%string = Some hello /\
    files (sfs c2) !! "a.txt"%string = Some hello /\
    In (EvSend [Frame (EChecksum (sample_digest hello))]) (slog c1) /\
    In (EvRecvRaw hello None) (slog s1) /\
    In (EvSend [Frame (EChecksum (sample_digest hello))]) (slog s2) /\
    In (EvRecvRaw hello None) (slog c2).
Proof.
  apply (store_then_retrieve sample_digest hello_fs empty_fs empty_fs "a.txt" hello 2);
    first [reflexivity | lia].
Defined.

(** ** C2: a truncated store leaves no file *)

(** Below [2^63] the declared size reaches [io.CopyN] unchanged: a stream
    that ends after fewer payload bytes fails with [EOF] and the file is
    removed. *)
Lemma store_truncated_removes (md5 : list byte -> list byte) (fs : fsys) (name : string)
    (size : N) (bs : list byte) (out : list item) (lg : list event) :
  files fs !! name = None -> create_err fs name = None ->
  Z.of_N size < 2 ^ 63 -> (List.length bs < N.to_nat size)%nat ->
  exists s', exec true (ServerSaloni.handleStorage md5 name size) (mkSide fs (map Raw bs) out lg)
             = (Done (Err (SReceivingData EOF)), s') /\ files (sfs s') !! name = None.
Proof.
  intros Hn Hc Hsz Hlt.
  assert (E : int64_of_uint64 size = Z.of_N size).
  { unfold int64_of_uint64. rewrite Z.mod_small by lia.
    destruct (Z.ltb_spec (Z.of_N size) (2 ^ 63)); lia. }
  assert (C : copyN (Z.of_N size) true (map Raw bs) = Some (bs, Some EOF, [])).
  { unfold copyN. destruct (Z.leb_spec (Z.of_N size) 0); [lia|].
    rewrite <- N_nat_Z, Nat2Z.id. apply copy_raw_short. exact Hlt. }
  eexists. cbn. unfold fs_create. rewrite Hc, Hn. cbn. rewrite E, C. cbn.
  split; [reflexivity|]. cbn. apply lookup_delete_eq.
Qed.

(** C2 (defect). The declared [size] is a [uint64] converted with
    [int64(request.Size)]; from [2^63] on it wraps to a negative count,
    [io.CopyN] then copies nothing and reports no error. A StorageRequest
    for "f" of size [2^63] followed only by the checksum of the empty
    payload, after which the stream ends, is accepted by both servers: the
    stream ended long before [2^63] payload bytes were read, yet the empty
    file "f" remains and the reply is "File stored successfully". *)
Theorem store_huge_size_keeps_file (md5 : list byte -> list byte) :
  (let (st, s) := exec true (ServerSaloni.handleStorage md5 "f" (2 ^ 63)%N)
                    (mkSide empty_fs [Frame (EChecksum (md5 []))] [] []) in
   st = Done (Ok tt) /\ files (sfs s) !! "f"%string = Some [] /\
   sout s = [Frame (EResponse true "Ready for data"); Frame (EResponse true "File stored successfully")]) /\
  (let (st, s) := exec true (SaloniServer.handleStorage md5 "f" (2 ^ 63)%N)
                    (mkSide empty_fs [Frame (EChecksum (md5 []))] [] []) in
   st = Done (Ok tt) /\ files (sfs s) !! "f"%string = Some [] /\
   sout s = [Frame (EResponse true "Ready for data"); Frame (EResponse true "File stored successfully")]).
Proof.
  assert (H : int64_of_uint64 (2 ^ 63)%N = - 2 ^ 63) by reflexivity.
  assert (C : forall c l, copyN (- 2 ^ 63) c l = Some ([], None, l)) by reflexivity.
  repeat progress (cbn; rewrite ?H, ?C, ?lookup_empty, ?lookup_insert_eq, ?VerifyChecksum_refl).
  repeat split.
Qed.


(** ** C3: a checksum mismatch removes the file *)

(** C3. When the payload of the declared size has arrived in full and the
    trailing ChecksumMessage differs from the receiver's digest of it, the
    exchange fails with the checksum-mismatch error and the file just
    written is gone: on the store path ([server_saloni]) the server removes
    it and answers Response{ok:false, "Checksum mismatch"}; on the retrieve
    path the client removes its downloaded file. *)
Theorem checksum_mismatch_removes (md5 : list byte -> list byte) :
  (forall (closed : bool) (fs : fsys) (name : string) (bs c : list byte)
          (rest out : list item) (lg : list event),
    files fs !! name = None -> create_err fs name = None ->
    Z.of_nat (List.length bs) < 2 ^ 63 -> c <> md5 bs ->
    exists s', exec closed (ServerSaloni.handleStorage md5 name (N.of_nat (List.length bs)))
                 (mkSide fs (map Raw bs ++ Frame (EChecksum c) :: rest) out lg)
               = (Done (Err SChecksumMismatch), s')
             /\ files (sfs s') !! name = None
             /\ sout s' = out ++ [Frame (EResponse true "Ready for data");
                                  Frame (EResponse false "Checksum mismatch")]) /\
  (forall (closed : bool) (fs : fsys) (name msg : string) (bs c : list byte)
          (rest out : list item) (lg : list event),
    files fs !! name = None -> create_err fs name = None ->
    Z.of_nat (List.length bs) < 2 ^ 63 -> c <> md5 bs ->
    exists s', exec closed (Client.get md5 name)
                 (mkSide fs (Frame (ERetrievalResp true msg (N.of_nat (List.length bs)))
                             :: map Raw bs ++ Frame (EChecksum c) :: rest) out lg)
               = (Done (Err CChecksumMismatch), s')
             /\ files (sfs s') !! name = None).
Proof.
  split.
  - intros closed fs name bs c rest out lg Hn Hc Hlen Hne.
    assert (V : VerifyChecksum (md5 bs) c = false).
    { destruct (VerifyChecksum (md5 bs) c) eqn:E; [|reflexivity].
      apply VerifyChecksum_eq in E. congruence. }
    assert (C : fs_create fs name = (None, set_files fs (<[name := []]> (files fs))))
      by (unfold fs_create; rewrite Hc, Hn; reflexivity).
    eexists.
    repeat progress (cbn; rewrite ?C, ?int64_of_uint64_small, ?copyN_full, ?lookup_insert_eq, ?V by exact Hlen).
    split; [reflexivity|]. split; [apply lookup_delete_eq|].
    rewrite <- app_assoc. reflexivity.
  - intros closed fs name msg bs c rest out lg Hn Hc Hlen Hne.
    assert (V : VerifyChecksum c (md5 bs) = false).
    { destruct (VerifyChecksum c (md5 bs)) eqn:E; [|reflexivity].
      apply VerifyChecksum_eq in E. congruence. }
    assert (C : fs_create fs name = (None, set_files fs (<[name := []]> (files fs))))
      by (unfold fs_create; rewrite Hc, Hn; reflexivity).
    eexists.
    repeat progress (cbn; rewrite ?C, ?int64_of_uint64_small, ?copyN_full, ?lookup_insert_eq, ?V by exact Hlen).
    split; [reflexivity|]. apply lookup_delete_eq.
Qed.

Lemma checksum_mismatch_removes_witness :
  (exists s', exec true (ServerSaloni.handleStorage sample_digest "a.txt" (N.of_nat (List.length hello)))
                (mkSide empty_fs (map Raw hello ++ [Frame (EChecksum [])]) [] [])
              = (Done (Err SChecksumMismatch), s')
            /\ files (sfs s') !! "a.txt"%string = None
            /\ sout s' = [] ++ [Frame (EResponse true "Ready for data");
                                Frame (EResponse false "Checksum mismatch")]) /\
  (exists s', exec true (Client.get sample_digest "a.txt")
                (mkSide empty_fs (Frame (ERetrievalResp true "Ready to send" (N.of_nat (List.length hello)))
                                  :: map Raw hello ++ [Frame (EChecksum [])]) [] [])
              = (Done (Err CChecksumMismatch), s')
            /\ files (sfs s') !! "a.txt"%string = None).
Proof.
  split.
  - apply (proj1 (checksum_mismatch_removes sample_digest) true empty_fs "a.txt" hello [] [] [] []);
      first [reflexivity | discriminate].
  - apply (proj2 (checksum_mismatch_removes sample_digest) true empty_fs "a.txt" "Ready to send"
             hello [] [] [] []);
      first [reflexivity | discriminate].
Defined.

(** ** C4: a refused exclusive create reads and writes nothing *)

(** C4. When [server_saloni]'s exclusive create of the destination fails
    (the name exists, or another filesystem error), the handler sends
    Response{ok:false, error text} and returns the open error: the
    directory is unchanged (no byte written anywhere), the unread input is
    untouched (no payload byte read), and that response is all it sends. *)
Theorem create_failure_reads_nothing (md5 : list byte -> list byte) (closed : bool) (fs : fsys)
    (name : string) (size : N) (inp out : list item) (lg : list event) :
  files fs !! name <> None \/ create_err fs name <> None ->
  exists m, exec closed (ServerSaloni.handleStorage md5 name size) (mkSide fs inp out lg)
            = (Done (Err (SOpen name m)),
               mkSide fs inp (out ++ [Frame (EResponse false m)])
                      (EvSend [Frame (EResponse false m)] :: EvCreate name (Some m) :: lg)).
Proof.
  intros H. cbn. unfold fs_create.
  destruct (create_err fs name) as [m|] eqn:Ec.
  - exists m. reflexivity.
  - destruct (files fs !! name) as [c|] eqn:Ef.
    + eexists. reflexivity.
    + destruct H; congruence.
Qed.

Lemma create_failure_reads_nothing_witness :
  exists m, exec true (ServerSaloni.handleStorage sample_digest "a.txt" 5)
                 (mkSide hello_fs [Raw Byte.x68] [] [])
            = (Done (Err (SOpen "a.txt" m)),
               mkSide hello_fs [Raw Byte.x68] ([] ++ [Frame (EResponse false m)])
                      [EvSend [Frame (EResponse false m)]; EvCreate "a.txt" (Some m)]).
Proof.
  apply (create_failure_reads_nothing sample_digest true hello_fs "a.txt" 5 [Raw Byte.x68] [] []).
  left. intro H. vm_compute in H. discriminate H.
Defined.

(** ** C5: a failed retrieval streams nothing *)

(** C5. When the requested file is missing, or stat or open of it fails,
    [server_saloni]'s [handleRetrieval] sends RetrievalResponse{ok:false,
    error text, size 0} and returns an error; it sends nothing else (no
    payload byte, no checksum), reads nothing and changes no file. *)
Theorem retrieval_failure_sends_nothing (md5 : list byte -> list byte) (closed : bool) (fs : fsys)
    (name : string) (inp out : list item) (lg : list event) :
  files fs !! name = None \/ stat_err fs name <> None \/ open_err fs name <> None ->
  exists m e lg', exec closed (ServerSaloni.handleRetrieval md5 name) (mkSide fs inp out lg)
                  = (Done (Err e), mkSide fs inp (out ++ [Frame (ERetrievalResp false m 0)]) lg').
Proof.
  intros H. cbn.
  destruct (fs_stat fs name) as [sz|m] eqn:Es; [|cbn; eexists _, _, _; reflexivity].
  cbn. destruct (fs_read fs name) as [data|m] eqn:Er; [|cbn; eexists _, _, _; reflexivity].
  exfalso. unfold fs_stat, fs_read in *.
  destruct (stat_err fs name); [discriminate|].
  destruct (open_err fs name); [discriminate|].
  destruct (files fs !! name); [|discriminate].
  destruct H as [H|[H|H]]; congruence.
Qed.

Lemma retrieval_failure_sends_nothing_witness :
  exists m e lg', exec true (ServerSaloni.handleRetrieval sample_digest "a.txt")
                       (mkSide empty_fs [] [] [])
                  = (Done (Err e), mkSide empty_fs [] ([] ++ [Frame (ERetrievalResp false m 0)]) lg').
Proof.
  apply (retrieval_failure_sends_nothing sample_digest true empty_fs "a.txt" [] [] []).
  left. vm_compute. reflexivity.
Defined.

(** ** C7: the names the servers give the filesystem *)

Lemma exec_fs_calls_on {A : Type} (n : string) (closed : bool) (p : prog A) (s : side) :
  fs_calls_on n p ->
  exists post, slog (snd (exec closed p s)) = post ++ slog s /\
               Forall (addresses_only n) post.
Proof.
  revert s. induction p as [a|w|its k IH|k IH|m k IH|nm k IH|nm k IH|nm k IH|nm bs k IH|nm k IH];
    intros s Hp; cbn in *.
  - exists []. split; [reflexivity|constructor].
  - exists []. split; [reflexivity|constructor].
  - destruct (IH (mkSide (sfs s) (sinp s) (sout s ++ its) (EvSend its :: slog s)) Hp) as [post [Ep Fp]].
    exists (post ++ [EvSend its]). rewrite Ep, <- app_assoc. split; [reflexivity|].
    apply Forall_app. split; [exact Fp|]. constructor; [unfold addresses_only; cbn; first [left; reflexivity | right; reflexivity] | constructor].
  - destruct (receive closed (sinp s)) as [[r rest]|]; [|exists []; split; [reflexivity|constructor]].
    destruct (IH r (mkSide (sfs s) rest (sout s) (EvRecvMsg r :: slog s)) (Hp r)) as [post [Ep Fp]].
    exists (post ++ [EvRecvMsg r]). rewrite Ep, <- app_assoc. split; [reflexivity|].
    apply Forall_app. split; [exact Fp|]. constructor; [unfold addresses_only; cbn; first [left; reflexivity | right; reflexivity] | constructor].
  - destruct (copyN m closed (sinp s)) as [[[bs e] rest]|]; [|exists []; split; [reflexivity|constructor]].
    destruct (IH bs e (mkSide (sfs s) rest (sout s) (EvRecvRaw bs e :: slog s)) (Hp bs e)) as [post [Ep Fp]].
    exists (post ++ [EvRecvRaw bs e]). rewrite Ep, <- app_assoc. split; [reflexivity|].
    apply Forall_app. split; [exact Fp|]. constructor; [unfold addresses_only; cbn; first [left; reflexivity | right; reflexivity] | constructor].
  - destruct Hp as [-> Hk]. destruct (fs_create (sfs s) n) as [r fs'].
    destruct (IH r (mkSide fs' (sinp s) (sout s) (EvCreate n r :: slog s)) (Hk r)) as [post [Ep Fp]].
    exists (post ++ [EvCreate n r]). rewrite Ep, <- app_assoc. split; [reflexivity|].
    apply Forall_app. split; [exact Fp|]. constructor; [unfold addresses_only; cbn; first [left; reflexivity | right; reflexivity] | constructor].
  - destruct Hp as [-> Hk].
    destruct (IH _ (mkSide (sfs s) (sinp s) (sout s) (EvStat n :: slog s)) (Hk (fs_stat (sfs s) n))) as [post [Ep Fp]].
    exists (post ++ [EvStat n]). rewrite Ep, <- app_assoc. split; [reflexivity|].
    apply Forall_app. split; [exact Fp|]. constructor; [unfold addresses_only; cbn; first [left; reflexivity | right; reflexivity] | constructor].
  - destruct Hp as [-> Hk].
    destruct (IH _ (mkSide (sfs s) (sinp s) (sout s) (EvOpen n :: slog s)) (Hk (fs_read (sfs s) n))) as [post [Ep Fp]].
    exists (post ++ [EvOpen n]). rewrite Ep, <- app_assoc. split; [reflexivity|].
    apply Forall_app. split; [exact Fp|]. constructor; [unfold addresses_only; cbn; first [left; reflexivity | right; reflexivity] | constructor].
  - destruct Hp as [-> Hk].
    destruct (IH (mkSide (fs_write (sfs s) n bs) (sinp s) (sout s) (EvWrite n bs :: slog s)) Hk)
      as [post [Ep Fp]].
    exists (post ++ [EvWrite n bs]). rewrite Ep, <- app_assoc. split; [reflexivity|].
    apply Forall_app. split; [exact Fp|]. constructor; [unfold addresses_only; cbn; first [left; reflexivity | right; reflexivity] | constructor].
  - destruct Hp as [-> Hk].
    destruct (IH (mkSide (fs_remove (sfs s) n) (sinp s) (sout s) (EvRemove n :: slog s)) Hk)
      as [post [Ep Fp]].
    exists (post ++ [EvRemove n]). rewrite Ep, <- app_assoc. split; [reflexivity|].
    apply Forall_app. split; [exact Fp|]. constructor; [unfold addresses_only; cbn; first [left; reflexivity | right; reflexivity] | constructor].
Qed.

(** C7 (as the code has it). [server_saloni.go] gives the filesystem the
    requested [fileName] exactly as received, when storing and when
    retrieving. [saloni_server.go] does so when retrieving, but when storing
    it addresses only the part of [fileName] after its last '/'. *)
Theorem server_file_names (md5 : list byte -> list byte) (closed : bool) (name : string)
    (size : N) (s : side) :
  (exists post, slog (snd (exec closed (ServerSaloni.handleStorage md5 name size) s)) = post ++ slog s
                /\ Forall (addresses_only name) post) /\
  (exists post, slog (snd (exec closed (ServerSaloni.handleRetrieval md5 name) s)) = post ++ slog s
                /\ Forall (addresses_only name) post) /\
  (exists post, slog (snd (exec closed (SaloniServer.handleStorage md5 name size) s)) = post ++ slog s
                /\ Forall (addresses_only (last_part name)) post) /\
  (exists post, slog (snd (exec closed (SaloniServer.handleRetrieval md5 name) s)) = post ++ slog s
                /\ Forall (addresses_only name) post).
Proof.
  split; [|split; [|split]]; apply exec_fs_calls_on.
  - unfold ServerSaloni.handleStorage. fs_calls_solve.
  - unfold ServerSaloni.handleRetrieval. fs_calls_solve.
  - unfold SaloniServer.handleStorage. fs_calls_solve.
  - unfold SaloniServer.handleRetrieval. fs_calls_solve.
Qed.

(** C7 fails for [saloni_server.go]: storing "d/x.txt" creates "x.txt". *)
Lemma saloni_server_strips_directory :
  let (st, s) := exec true (SaloniServer.handleStorage sample_digest "d/x.txt" 0)
                   (mkSide empty_fs [Frame (EChecksum [])] [] []) in
  st = Done (Ok tt) /\
  files (sfs s) !! "x.txt"%string = Some [] /\
  files (sfs s) !! "d/x.txt"%string = None /\
  In (EvCreate "x.txt" None) (slog s).
Proof.
  vm_compute. split; [reflexivity|]. split; [reflexivity|]. split; [reflexivity|].
  in_log.
Qed.

(** C6 fails: the client creates the local file before it sends the
    RetrievalRequest, so a rejected retrieval of "a.txt" leaves an empty
    local "a.txt" behind. *)
Lemma get_rejected_leaves_local_file :
  let (st, s) := exec true (Client.get sample_digest "a.txt")
                   (mkSide empty_fs
                      [Frame (ERetrievalResp false "stat a.txt: no such file or directory" 0)]
                      [] []) in
  st = Done (Err CRejectedRetrieval) /\
  files (sfs s) !! "a.txt"%string = Some [] /\
  rev (slog s) = [EvCreate "a.txt" None; EvSend [Frame (ERetrievalReq "a.txt")];
                  EvRecvMsg (Ok (ERetrievalResp false "stat a.txt: no such file or directory" 0))].
Proof.
  vm_compute. repeat split.
Qed.

(** C6 (as the code has it). The client's exclusive create of the local
    destination file is its first action and happens before the
    RetrievalRequest is sent, so before the RetrievalResponse is known; if
    the create fails, [get] sends nothing and returns the create error.
    When the create succeeds and the reply is anything but an ok
    RetrievalResponse (such as the refusal the servers send for a remote
    file that does not exist), [get] returns the rejection having sent only
    the RetrievalRequest, and the empty local file made by the create is
    left behind. *)
Theorem get_creates_before_request (md5 : list byte -> list byte) (closed : bool) (fs : fsys)
    (name : string) (inp out : list item) :
  (let (st, s) := exec closed (Client.get md5 name) (mkSide fs inp out []) in
   (exists post, slog s = post ++ [EvSend [Frame (ERetrievalReq name)]; EvCreate name None]) \/
   (exists m, slog s = [EvCreate name (Some m)] /\ st = Done (Err (CCreateFailed m)))) /\
  (forall r rest,
     create_err fs name = None -> files fs !! name = None ->
     receive closed inp = Some (r, rest) ->
     (forall m size, r <> Ok (ERetrievalResp true m size)) ->
     let (st, s) := exec closed (Client.get md5 name) (mkSide fs inp out []) in
     st = Done (Err CRejectedRetrieval) /\
     files (sfs s) = <[name := []]> (files fs) /\
     sout s = out ++ [Frame (ERetrievalReq name)]).
Proof.
  split.
  - unfold Client.get. rewrite exec_bind. cbn [exec sfs sinp sout slog].
    destruct (fs_create fs name) as [[m|] fs'].
    + right. exists m. split; reflexivity.
    + cbv beta iota. rewrite exec_bind. cbn [exec SendRetrievalRequest sfs sinp sout slog].
      match goal with
      | |- context [exec ?c ?p ?s] =>
          destruct (exec_log_extends c p s) as [post Hp]; destruct (exec c p s) as [st s']
      end.
      left. exists post. exact Hp.
  - intros r rest Hce Hf R Hr.
    assert (Ec : fs_create fs name = (None, set_files fs (<[name := []]> (files fs))))
      by (unfold fs_create; rewrite Hce, Hf; reflexivity).
    unfold Client.get, SendRetrievalRequest, ReceiveRetrievalResponse, Receive. cbn.
    rewrite Ec. cbn. rewrite R. cbn.
    destruct r as [[| | |ok m size| |]|err]; cbn; try (split; [reflexivity|split; reflexivity]).
    destruct ok; cbn.
    + exfalso. exact (Hr m size eq_refl).
    + split; [reflexivity|split; reflexivity].
Qed.

Lemma get_creates_before_request_witness :
  let (st, s) := exec true (Client.get sample_digest "a.txt")
                   (mkSide empty_fs
                      [Frame (ERetrievalResp false "stat a.txt: no such file or directory" 0)]
                      [] []) in
  st = Done (Err CRejectedRetrieval) /\
  files (sfs s) = <[("a.txt"%string) := []]> (files empty_fs) /\
  sout s = [] ++ [Frame (ERetrievalReq "a.txt")].
Proof.
  apply (proj2 (get_creates_before_request sample_digest true empty_fs "a.txt"
                  [Frame (ERetrievalResp false "stat a.txt: no such file or directory" 0)] [])
           (Ok (ERetrievalResp false "stat a.txt: no such file or directory" 0)) []).
  - reflexivity.
  - reflexivity.
  - vm_compute. reflexivity.
  - intros m size Hc. discriminate Hc.
Defined.

(** C8 fails: after a Response envelope, which is neither a request nor
    empty, [server_saloni.go] keeps the connection open and serves the
    RetrievalRequest that follows. *)
Lemma unexpected_variant_keeps_connection :
  let (st, s) := exec true (ServerSaloni.handleClient sample_digest 3)
                   (mkSide hello_fs [Frame (EResponse true "hi"); Frame (ERetrievalReq "a.txt")]
                      [] []) in
  st = Done tt /\
  sout s = [Frame (ERetrievalResp true "Ready to send" 5)] ++ map Raw hello
           ++ [Frame (EChecksum (sample_digest hello))].
Proof.
  vm_compute. split; reflexivity.
Qed.

(** C8 (as the code has it). One pass of the loop of [handleClient]: it
    returns, closing the connection, when [Receive] fails (end of stream or
    a malformed frame) or the envelope is empty; a Response,
    RetrievalResponse or ChecksumMessage envelope is logged and skipped and
    the loop reads the next one; after a StorageRequest or RetrievalRequest
    the loop goes on once the handler returns, whatever its result. *)
Theorem handleClient_loop (md5 : list byte -> list byte) (closed : bool) (fuel : nat) (s : side) :
  (sinp s = [] -> closed = true ->
   exec closed (ServerSaloni.handleClient md5 (S fuel)) s
   = (Done tt, mkSide (sfs s) [] (sout s) (EvRecvMsg (Err EOF) :: slog s))) /\
  (forall b rest, sinp s = Raw b :: rest ->
   exec closed (ServerSaloni.handleClient md5 (S fuel)) s
   = (Done tt, mkSide (sfs s) rest (sout s) (EvRecvMsg (Err Malformed) :: slog s))) /\
  (forall rest, sinp s = Frame EEmpty :: rest ->
   exec closed (ServerSaloni.handleClient md5 (S fuel)) s
   = (Done tt, mkSide (sfs s) rest (sout s) (EvRecvMsg (Ok EEmpty) :: slog s))) /\
  (forall e rest, sinp s = Frame e :: rest ->
   (exists ok m, e = EResponse ok m) \/ (exists ok m sz, e = ERetrievalResp ok m sz) \/
   (exists c, e = EChecksum c) ->
   exec closed (ServerSaloni.handleClient md5 (S fuel)) s
   = exec closed (ServerSaloni.handleClient md5 fuel)
          (mkSide (sfs s) rest (sout s) (EvRecvMsg (Ok e) :: slog s))) /\
  (forall n sz rest r s1, sinp s = Frame (EStorageReq n sz) :: rest ->
   exec closed (ServerSaloni.handleStorage md5 n sz)
        (mkSide (sfs s) rest (sout s) (EvRecvMsg (Ok (EStorageReq n sz)) :: slog s)) = (Done r, s1) ->
   exec closed (ServerSaloni.handleClient md5 (S fuel)) s
   = exec closed (ServerSaloni.handleClient md5 fuel) s1) /\
  (forall n rest r s1, sinp s = Frame (ERetrievalReq n) :: rest ->
   exec closed (ServerSaloni.handleRetrieval md5 n)
        (mkSide (sfs s) rest (sout s) (EvRecvMsg (Ok (ERetrievalReq n)) :: slog s)) = (Done r, s1) ->
   exec closed (ServerSaloni.handleClient md5 (S fuel)) s
   = exec closed (ServerSaloni.handleClient md5 fuel) s1).
Proof.
  destruct s as [fs inp out lg]; cbn [sinp sfs sout slog].
  split; [|split; [|split; [|split; [|split]]]].
  - intros -> ->. reflexivity.
  - intros b rest ->. reflexivity.
  - intros rest ->. reflexivity.
  - intros e rest -> [[ok [m ->]]|[[ok [m [sz ->]]]|[c ->]]]; reflexivity.
  - intros n sz rest r s1 -> H.
    cbn [ServerSaloni.handleClient]. rewrite exec_bind.
    cbn [exec Receive receive sinp sfs sout slog].
    cbv beta iota. rewrite exec_bind, H. reflexivity.
  - intros n rest r s1 -> H.
    cbn [ServerSaloni.handleClient]. rewrite exec_bind.
    cbn [exec Receive receive sinp sfs sout slog].
    cbv beta iota. rewrite exec_bind, H. reflexivity.
Qed.

(** [handleClient_loop] on a Response envelope followed by an empty one. *)
Lemma handleClient_loop_witness :
  exec true (ServerSaloni.handleClient sample_digest 2)
       (mkSide hello_fs [Frame (EResponse true "x"); Frame EEmpty] [] [])
  = exec true (ServerSaloni.handleClient sample_digest 1)
         (mkSide hello_fs [Frame EEmpty] [] [EvRecvMsg (Ok (EResponse true "x"))]).
Proof.
  destruct (handleClient_loop sample_digest true 1
              (mkSide hello_fs [Frame (EResponse true "x"); Frame EEmpty] [] []))
    as [_ [_ [_ [H _]]]].
  apply (H (EResponse true "x") [Frame EEmpty]).
  - reflexivity.
  - left. exists true, "x"%string. reflexivity.
Defined.

(** C9 fails: when the payload ends after 2 of the 5 announced bytes, the
    client returns the transfer error and keeps the partial "a.txt"; it
    never removes it. *)
Theorem get_truncated_keeps_partial (md5 : list byte -> list byte) :
  let (st, s) := exec true (Client.get md5 "a.txt")
                   (mkSide empty_fs [Frame (ERetrievalResp true "Ready to send" 5);
                                     Raw Byte.x68; Raw Byte.x65] [] []) in
  st = Done (Err (CTransferFailed EOF)) /\
  files (sfs s) !! "a.txt"%string = Some [Byte.x68; Byte.x65] /\
  ~ In (EvRemove "a.txt") (slog s).
Proof.
  vm_compute. split; [reflexivity|]. split; [reflexivity|].
  intros Hin. repeat (destruct Hin as [Hin|Hin]; [discriminate Hin|]). exact Hin.
Qed.

(** Without a '/', [strings.Split(name, "/")] is [[name]]. *)
Lemma split_slash_no_slash (name : string) :
  forallb (fun c => negb (Ascii.eqb c "/"%char)) (list_ascii_of_string name) = true ->
  split_slash name = [name].
Proof.
  induction name as [|c r IH]; cbn; [reflexivity|].
  intros H. apply andb_true_iff in H as [Hc Hr].
  destruct (Ascii.eqb c "/"%char); [discriminate|].
  rewrite IH by exact Hr. reflexivity.
Qed.

(** C10. For a file name without '/', the storage handlers of
    [saloni_server.go] and [server_saloni.go] behave the same on every
    state: same filesystem, same output, same log, same result. *)
Theorem storage_variants_agree (md5 : list byte -> list byte) (name : string) (size : N)
    (closed : bool) (s : side) :
  forallb (fun c => negb (Ascii.eqb c "/"%char)) (list_ascii_of_string name) = true ->
  exec closed (SaloniServer.handleStorage md5 name size) s
  = exec closed (ServerSaloni.handleStorage md5 name size) s.
Proof.
  intros H. unfold SaloniServer.handleStorage, last_part. cbv zeta.
  rewrite (split_slash_no_slash name H). reflexivity.
Qed.

(** [storage_variants_agree] on "a.txt". *)
Lemma storage_variants_agree_witness :
  forallb (fun c => negb (Ascii.eqb c "/"%char)) (list_ascii_of_string "a.txt") = true /\
  exec true (SaloniServer.handleStorage sample_digest "a.txt" 5)
       (mkSide empty_fs (map Raw hello ++ [Frame (EChecksum (sample_digest hello))]) [] [])
  = exec true (ServerSaloni.handleStorage sample_digest "a.txt" 5)
         (mkSide empty_fs (map Raw hello ++ [Frame (EChecksum (sample_digest hello))]) [] []).
Proof.
  split.
  - reflexivity.
  - apply storage_variants_agree. reflexivity.
Defined.

(** * Further properties of the handlers, the client and the loops *)

(** ** Channel and execution lemmas *)

(** What [copy_raw] reads is a prefix of raw bytes; without error it read
    all [k] of them. *)
Lemma copy_raw_spec (k : nat) (closed : bool) (inp : list item) bs e r :
  copy_raw k closed inp = Some (bs, e, r) ->
  inp = map Raw bs ++ r /\ (e = None -> List.length bs = k).
Proof.
  revert inp bs e r. induction k as [|k IH]; intros inp bs e r H; cbn in H.
  - injection H as <- <- <-. split; reflexivity.
  - destruct inp as [|[b|f] inp].
    + destruct closed; [|discriminate]. injection H as <- <- <-. split; [reflexivity|discriminate].
    + destruct (copy_raw k closed inp) as [[[bs' e'] r']|] eqn:E; [|discriminate].
      injection H as <- <- <-. destruct (IH _ _ _ _ E) as [-> Hl].
      split; [reflexivity|]. intros He. cbn. rewrite Hl by exact He. reflexivity.
    + injection H as <- <- <-. split; [reflexivity|discriminate].
Qed.

Lemma copyN_spec (n : Z) (closed : bool) (inp : list item) bs e r :
  copyN n closed inp = Some (bs, e, r) ->
  inp = map Raw bs ++ r /\ (e = None -> List.length bs = Z.to_nat n) /\
  (n <= 0 -> bs = [] /\ e = None).
Proof.
  unfold copyN. destruct (Z.leb_spec n 0) as [Hn|Hn]; intros H.
  - injection H as <- <- <-. split; [reflexivity|]. split; [|auto].
    intros _. rewrite Z2Nat.nonpos by lia. reflexivity.
  - destruct (copy_raw_spec _ _ _ _ _ _ H) as [H1 H2]. split; [exact H1|]. split; [exact H2|lia].
Qed.

(** Once the peer has closed the connection no read blocks. *)
Lemma copy_raw_closed (k : nat) (inp : list item) : copy_raw k true inp <> None.
Proof.
  revert inp. induction k as [|k IH]; intros [|[b|f] inp]; cbn; try discriminate.
  specialize (IH inp). destruct (copy_raw k true inp) as [[[? ?] ?]|]; [discriminate|congruence].
Qed.

Lemma exec_closed_finished {A : Type} (p : prog A) (s : side) :
  finished (fst (exec true p s)) = true.
Proof.
  revert s. induction p as [a|w|its k IH|k IH|n k IH|nm k IH|nm k IH|nm k IH|nm bs k IH|nm k IH];
    intros s; cbn; auto.
  - destruct (sinp s) as [|[b|f] r]; cbn; apply IH.
  - unfold copyN. destruct (n <=? 0); [apply IH|].
    destruct (copy_raw (Z.to_nat n) true (sinp s)) as [[[bs e] r]|] eqn:E;
      [apply IH | exfalso; exact (copy_raw_closed _ _ E)].
  - destruct (fs_create (sfs s) nm). apply IH.
Qed.

(** A run consumes a prefix of its input. *)
Lemma exec_inp_suffix {A : Type} (closed : bool) (p : prog A) (s : side) :
  exists pre, sinp s = pre ++ sinp (snd (exec closed p s)).
Proof.
  revert s. induction p as [a|w|its k IH|k IH|n k IH|nm k IH|nm k IH|nm k IH|nm bs k IH|nm k IH];
    intros s; cbn; try (exists []; reflexivity).
  - match goal with |- context [exec _ _ ?t] => exact (IH t) end.
  - destruct (receive closed (sinp s)) as [[r rest]|] eqn:E; [|exists []; reflexivity].
    destruct (IH r (mkSide (sfs s) rest (sout s) (EvRecvMsg r :: slog s))) as [pre Hp].
    cbn in Hp. unfold receive in E.
    destruct (sinp s) as [|[b|f] r'].
    + exists pre. destruct closed; [|discriminate]. injection E as _ <-. exact Hp.
    + injection E as _ <-. exists (Raw b :: pre). cbn. f_equal. exact Hp.
    + injection E as _ <-. exists (Frame f :: pre). cbn. f_equal. exact Hp.
  - destruct (copyN n closed (sinp s)) as [[[bs e] rest]|] eqn:E; [|exists []; reflexivity].
    destruct (copyN_spec _ _ _ _ _ _ E) as [Hi _].
    destruct (IH bs e (mkSide (sfs s) rest (sout s) (EvRecvRaw bs e :: slog s))) as [pre Hp].
    cbn in Hp. exists (map Raw bs ++ pre). rewrite Hi, <- app_assoc. f_equal. exact Hp.
  - destruct (fs_create (sfs s) nm) as [r fs'].
    match goal with |- context [exec _ _ ?t] => exact (IH r t) end.
  - match goal with |- context [exec _ (k ?r) ?t] => exact (IH r t) end.
  - match goal with |- context [exec _ (k ?r) ?t] => exact (IH r t) end.
  - match goal with |- context [exec _ _ ?t] => exact (IH t) end.
  - match goal with |- context [exec _ _ ?t] => exact (IH t) end.
Qed.

Lemma int64_of_uint64_id (x : N) : Z.of_N x < 2 ^ 63 -> int64_of_uint64 x = Z.of_N x.
Proof.
  intros H. unfold int64_of_uint64. rewrite Z.mod_small by lia.
  destruct (Z.ltb_spec (Z.of_N x) (2 ^ 63)); lia.
Qed.

(** [os.Stat] and [os.Open] of one name see the same file. *)
Lemma stat_read_same (fs : fsys) (n : string) (size : N) (data : list byte) :
  fs_stat fs n = Ok size -> fs_read fs n = Ok data -> size = N.of_nat (List.length data).
Proof.
  unfold fs_stat, fs_read. destruct (stat_err fs n); [discriminate|].
  destruct (open_err fs n); [discriminate|].
  destruct (files fs !! n); [|discriminate].
  intros H1 H2. injection H1 as <-. injection H2 as <-. reflexivity.
Qed.

(** [saloni_server.go]'s [handleStorage] is [server_saloni.go]'s applied to
    the last part of the name. *)
Lemma saloni_storage_last_part (md5 : list byte -> list byte) (n : string) (size : N) :
  SaloniServer.handleStorage md5 n size = ServerSaloni.handleStorage md5 (last_part n) size.
Proof. reflexivity. Qed.

Lemma storage_same_prog (md5 : list byte -> list byte) (n : string) (size : N) :
  no_slash n = true ->
  SaloniServer.handleStorage md5 n size = ServerSaloni.handleStorage md5 n size.
Proof.
  intros H. unfold SaloniServer.handleStorage, last_part. cbv zeta.
  rewrite (split_slash_no_slash n H). reflexivity.
Qed.

Lemma retrieval_same_prog (md5 : list byte -> list byte) (n : string) :
  SaloniServer.handleRetrieval md5 n = ServerSaloni.handleRetrieval md5 n.
Proof. reflexivity. Qed.

(** ** The storage handler *)

Lemma storage_ok_gen (md5 : list byte -> list byte) (closed : bool) (n : string) (size : N)
    (s s' : side) :
  exec closed (ServerSaloni.handleStorage md5 n size) s = (Done (Ok tt), s') ->
  exists bs,
    sinp s = map Raw bs ++ Frame (EChecksum (md5 bs)) :: sinp s' /\
    (Z.of_N size < 2 ^ 63 -> N.of_nat (List.length bs) = size) /\
    files (sfs s) !! n = None /\
    files (sfs s') = <[n := bs]> (files (sfs s)) /\
    sout s' = sout s ++ [Frame (EResponse true "Ready for data");
                         Frame (EResponse true "File stored successfully")].
Proof.
  destruct s as [fs inp out lg].
  unfold ServerSaloni.handleStorage, SendResponse, CopyN, Receive, GetChecksum. cbn.
  destruct (fs_create fs n) as [[m|] fs1] eqn:Ec; cbn; [discriminate|].
  destruct (copyN (int64_of_uint64 size) closed inp) as [[[bs [e|]] rest]|] eqn:Ecp;
    cbn; try discriminate.
  destruct (receive closed rest) as [[[env|err] rest2]|] eqn:Er; cbn; try discriminate.
  destruct env; cbn; try discriminate.
  destruct (VerifyChecksum (md5 bs) checksum) eqn:Ev; cbn; [|discriminate].
  intros H. injection H as <-.
  apply VerifyChecksum_eq in Ev. subst checksum.
  unfold fs_create in Ec.
  destruct (create_err fs n) eqn:Hce; [discriminate|].
  destruct (files fs !! n) eqn:Hf; [discriminate|].
  injection Ec as <-.
  destruct (copyN_spec _ _ _ _ _ _ Ecp) as [Hinp [Hlen _]].
  unfold receive in Er. destruct rest as [|[b|f] rest']; [destruct closed; discriminate|discriminate|].
  injection Er as -> <-.
  exists bs. cbn. split; [exact Hinp|]. split; [|split; [reflexivity|split]].
  - intros Hs. specialize (Hlen eq_refl).
    assert (int64_of_uint64 size = Z.of_N size) as Hi.
    { unfold int64_of_uint64. rewrite Z.mod_small by lia.
      destruct (Z.ltb_spec (Z.of_N size) (2 ^ 63)); lia. }
    rewrite Hi in Hlen. lia.
  - unfold fs_write. cbn. rewrite lookup_insert_eq. cbn. rewrite insert_insert_eq. reflexivity.
  - rewrite <- app_assoc. reflexivity.
Qed.

Lemma storage_err_gen (md5 : list byte -> list byte) (closed : bool) (n : string) (size : N)
    (s s' : side) (e : herr) :
  exec closed (ServerSaloni.handleStorage md5 n size) s = (Done (Err e), s') ->
  sfs s' = sfs s.
Proof.
  destruct s as [fs inp out lg].
  unfold ServerSaloni.handleStorage, SendResponse, CopyN, Receive, GetChecksum. cbn.
  destruct (fs_create fs n) as [[m|] fs1] eqn:Ec; cbn.
  { intros H. injection H as _ <-. unfold fs_create in Ec.
    destruct (create_err fs n); [injection Ec as _ <-; reflexivity|].
    destruct (files fs !! n); [injection Ec as _ <-; reflexivity|discriminate]. }
  unfold fs_create in Ec.
  destruct (create_err fs n) eqn:Hce; [discriminate|].
  destruct (files fs !! n) eqn:Hf; [discriminate|].
  injection Ec as <-.
  assert (Hback : forall bs, fs_remove (fs_write (set_files fs (<[n:=[]]> (files fs))) n bs) n = fs).
  { intros bs. unfold fs_remove, fs_write. cbn. rewrite lookup_insert_eq. cbn.
    rewrite insert_insert_eq, delete_insert_id by exact Hf.
    destruct fs; reflexivity. }
  destruct (copyN (int64_of_uint64 size) closed inp) as [[[bs [er|]] rest]|] eqn:Ecp;
    cbn; try discriminate.
  { intros H. injection H as _ <-. apply Hback. }
  destruct (receive closed rest) as [[[env|err] rest2]|] eqn:Er; cbn; try discriminate.
  2: { intros H. injection H as _ <-. apply Hback. }
  destruct env; cbn; try discriminate.
  destruct (VerifyChecksum (md5 bs) checksum) eqn:Ev; cbn; [discriminate|].
  intros H. injection H as _ <-. apply Hback.
Qed.

Lemma storage_panic_gen (md5 : list byte -> list byte) (closed : bool) (n : string)
    (s : side) (bs : list byte) (e : envelope) (rest : list item) :
  create_err (sfs s) n = None -> files (sfs s) !! n = None ->
  sinp s = map Raw bs ++ Frame e :: rest ->
  Z.of_nat (List.length bs) < 2 ^ 63 ->
  (forall c, e <> EChecksum c) ->
  let (st, s') := exec closed (ServerSaloni.handleStorage md5 n (N.of_nat (List.length bs))) s in
  st = Panicked "invalid memory address or nil pointer dereference" /\
  files (sfs s') = <[n := bs]> (files (sfs s)) /\
  sinp s' = rest.
Proof.
  destruct s as [fs inp out lg]; cbn. intros Hce Hf -> Hl He.
  assert (Ec : fs_create fs n = (None, set_files fs (<[n := []]> (files fs))))
    by (unfold fs_create; rewrite Hce, Hf; reflexivity).
  assert (Ei : int64_of_uint64 (N.of_nat (List.length bs)) = Z.of_nat (List.length bs))
    by (rewrite int64_of_uint64_id; lia).
  unfold ServerSaloni.handleStorage, SendResponse, CopyN, Receive, GetChecksum. cbn.
  rewrite Ec, Ei. cbn. rewrite copyN_full. cbn.
  destruct e; cbn; try (split; [reflexivity|]; split; [|reflexivity];
    unfold fs_write; cbn; rewrite lookup_insert_eq; cbn; rewrite insert_insert_eq; reflexivity).
  exfalso. exact (He checksum eq_refl).
Qed.

(** X1. A storage request succeeds only when the input held the payload as
    raw bytes [bs] followed by a ChecksumMessage carrying [md5 bs]; the file
    did not exist before and now holds exactly [bs] (as many bytes as the
    declared size, for sizes below 2^63), no other file changed, and the
    server answered "Ready for data" then "File stored successfully".
    [saloni_server.go] behaves so on the last part of the name. *)
Theorem storage_success_stores_payload (md5 : list byte -> list byte) (closed : bool)
    (n : string) (size : N) (s : side) :
  (forall s', exec closed (ServerSaloni.handleStorage md5 n size) s = (Done (Ok tt), s') ->
   exists bs,
     sinp s = map Raw bs ++ Frame (EChecksum (md5 bs)) :: sinp s' /\
     (Z.of_N size < 2 ^ 63 -> N.of_nat (List.length bs) = size) /\
     files (sfs s) !! n = None /\
     files (sfs s') = <[n := bs]> (files (sfs s)) /\
     sout s' = sout s ++ [Frame (EResponse true "Ready for data");
                          Frame (EResponse true "File stored successfully")]) /\
  (forall s', exec closed (SaloniServer.handleStorage md5 n size) s = (Done (Ok tt), s') ->
   exists bs,
     sinp s = map Raw bs ++ Frame (EChecksum (md5 bs)) :: sinp s' /\
     (Z.of_N size < 2 ^ 63 -> N.of_nat (List.length bs) = size) /\
     files (sfs s) !! last_part n = None /\
     files (sfs s') = <[last_part n := bs]> (files (sfs s)) /\
     sout s' = sout s ++ [Frame (EResponse true "Ready for data");
                          Frame (EResponse true "File stored successfully")]).
Proof.
  split; intros s' H.
  - exact (storage_ok_gen md5 closed n size s s' H).
  - rewrite saloni_storage_last_part in H. exact (storage_ok_gen md5 closed _ size s s' H).
Qed.

(** [storage_success_stores_payload] on the upload of "hello". *)
Lemma storage_success_stores_payload_witness :
  exists bs bs',
    files (sfs (snd (exec true (ServerSaloni.handleStorage sample_digest "a.txt" 5)
                        (mkSide empty_fs hello_upload [] []))))
      = <["a.txt"%string := bs]> (files empty_fs) /\
    N.of_nat (List.length bs) = 5%N /\
    files (sfs (snd (exec true (SaloniServer.handleStorage sample_digest "d/a.txt" 5)
                        (mkSide empty_fs hello_upload [] []))))
      = <[last_part "d/a.txt" := bs']> (files empty_fs).
Proof.
  destruct (storage_success_stores_payload sample_digest true "a.txt" 5
              (mkSide empty_fs hello_upload [] [])) as [H1 _].
  destruct (storage_success_stores_payload sample_digest true "d/a.txt" 5
              (mkSide empty_fs hello_upload [] [])) as [_ H2].
  destruct (H1 (snd (exec true (ServerSaloni.handleStorage sample_digest "a.txt" 5)
                      (mkSide empty_fs hello_upload [] []))) ltac:(vm_compute; reflexivity))
    as [bs [_ [Hl [_ [Hf _]]]]].
  destruct (H2 (snd (exec true (SaloniServer.handleStorage sample_digest "d/a.txt" 5)
                      (mkSide empty_fs hello_upload [] []))) ltac:(vm_compute; reflexivity))
    as [bs' [_ [_ [_ [Hf' _]]]]].
  exists bs, bs'. split; [exact Hf|]. split; [apply Hl; vm_compute; reflexivity|exact Hf'].
Defined.

(** X2. A storage request that ends in an error leaves the directory exactly
    as it was: a refused create changes nothing, and every later failure
    (payload cut short, no checksum, checksum mismatch) removes the file the
    handler had created. Both servers. *)
Theorem storage_error_keeps_directory (md5 : list byte -> list byte) (closed : bool)
    (n : string) (size : N) (s : side) :
  (forall s' e, exec closed (ServerSaloni.handleStorage md5 n size) s = (Done (Err e), s') ->
   sfs s' = sfs s) /\
  (forall s' e, exec closed (SaloniServer.handleStorage md5 n size) s = (Done (Err e), s') ->
   sfs s' = sfs s).
Proof.
  split; intros s' e H.
  - exact (storage_err_gen md5 closed n size s s' e H).
  - rewrite saloni_storage_last_part in H. exact (storage_err_gen md5 closed _ size s s' e H).
Qed.

(** [storage_error_keeps_directory] on "hello" sent with a wrong checksum. *)
Lemma storage_error_keeps_directory_witness :
  sfs (snd (exec true (ServerSaloni.handleStorage sample_digest "a.txt" 5)
              (mkSide empty_fs bad_upload [] []))) = empty_fs /\
  sfs (snd (exec true (SaloniServer.handleStorage sample_digest "d/a.txt" 5)
              (mkSide empty_fs bad_upload [] []))) = empty_fs.
Proof.
  destruct (storage_error_keeps_directory sample_digest true "a.txt" 5
              (mkSide empty_fs bad_upload [] [])) as [H1 _].
  destruct (storage_error_keeps_directory sample_digest true "d/a.txt" 5
              (mkSide empty_fs bad_upload [] [])) as [_ H2].
  split.
  - exact (H1 _ SChecksumMismatch ltac:(vm_compute; reflexivity)).
  - exact (H2 _ SChecksumMismatch ltac:(vm_compute; reflexivity)).
Defined.

(** X3. When the envelope that follows a complete payload is not a
    ChecksumMessage (a new request, say), [GetChecksum] yields nil and
    reading its field panics (in Go, ending the whole server process); the
    file the handler created stays behind holding the payload. Both servers,
    [saloni_server.go] on the last part of the name. *)
Theorem storage_panic_keeps_partial (md5 : list byte -> list byte) (closed : bool) (n : string)
    (s : side) (bs : list byte) (e : envelope) (rest : list item) :
  sinp s = map Raw bs ++ Frame e :: rest ->
  Z.of_nat (List.length bs) < 2 ^ 63 ->
  (forall c, e <> EChecksum c) ->
  (create_err (sfs s) n = None -> files (sfs s) !! n = None ->
   let (st, s') := exec closed (ServerSaloni.handleStorage md5 n (N.of_nat (List.length bs))) s in
   st = Panicked "invalid memory address or nil pointer dereference" /\
   files (sfs s') = <[n := bs]> (files (sfs s)) /\ sinp s' = rest) /\
  (create_err (sfs s) (last_part n) = None -> files (sfs s) !! last_part n = None ->
   let (st, s') := exec closed (SaloniServer.handleStorage md5 n (N.of_nat (List.length bs))) s in
   st = Panicked "invalid memory address or nil pointer dereference" /\
   files (sfs s') = <[last_part n := bs]> (files (sfs s)) /\ sinp s' = rest).
Proof.
  intros Hi Hl He. split; intros Hc Hf.
  - exact (storage_panic_gen md5 closed n s bs e rest Hc Hf Hi Hl He).
  - rewrite saloni_storage_last_part. exact (storage_panic_gen md5 closed _ s bs e rest Hc Hf Hi Hl He).
Qed.

(** [storage_panic_keeps_partial] on "hello" followed by a RetrievalRequest. *)
Lemma storage_panic_keeps_partial_witness :
  let (st, s') := exec true (ServerSaloni.handleStorage sample_digest "a.txt" (N.of_nat (List.length hello)))
                    (mkSide empty_fs panic_upload [] []) in
  st = Panicked "invalid memory address or nil pointer dereference" /\
  files (sfs s') = <["a.txt"%string := hello]> (files empty_fs) /\ sinp s' = [].
Proof.
  destruct (storage_panic_keeps_partial sample_digest true "a.txt" (mkSide empty_fs panic_upload [] [])
              hello (ERetrievalReq "b.txt") [] eq_refl ltac:(vm_compute; reflexivity)
              ltac:(intros c; discriminate)) as [H _].
  exact (H eq_refl eq_refl).
Defined.

(** ** The retrieval handler *)

Lemma retrieval_gen (md5 : list byte -> list byte) (closed : bool) (n : string) (s : side) :
  let (st, s') := exec closed (ServerSaloni.handleRetrieval md5 n) s in
  sfs s' = sfs s /\ sinp s' = sinp s /\
  ((exists data, fs_read (sfs s) n = Ok data /\ st = Done (Ok tt) /\
     sout s' = sout s ++ Frame (ERetrievalResp true "Ready to send" (N.of_nat (List.length data)))
                          :: map Raw data ++ [Frame (EChecksum (md5 data))]) \/
   (exists m e, st = Done (Err e) /\ sout s' = sout s ++ [Frame (ERetrievalResp false m 0)])).
Proof.
  destruct s as [fs inp out lg].
  unfold ServerSaloni.handleRetrieval, SendRetrievalResponse, SendChecksumVerification. cbn.
  destruct (fs_stat fs n) as [size|m] eqn:Es; cbn.
  - destruct (fs_read fs n) as [data|m] eqn:Er; cbn.
    + split; [reflexivity|]. split; [reflexivity|]. left. exists data.
      split; [reflexivity|]. split; [reflexivity|].
      rewrite (stat_read_same _ _ _ _ Es Er), <- !app_assoc. reflexivity.
    + split; [reflexivity|]. split; [reflexivity|]. right. eexists _, _. split; reflexivity.
  - split; [reflexivity|]. split; [reflexivity|]. right. eexists _, _. split; reflexivity.
Qed.

Lemma retrieval_reply_gen (md5 : list byte -> list byte) (closed : bool) (n : string) (s : side) :
  let (st, s') := exec closed (ServerSaloni.handleRetrieval md5 n) s in
  sfs s' = sfs s /\ sinp s' = sinp s /\
  exists ok m size rest,
    sout s' = sout s ++ Frame (ERetrievalResp ok m size) :: rest /\
    (ok = false -> size = 0%N /\ rest = [] /\ exists e, st = Done (Err e)) /\
    (ok = true -> m = "Ready to send"%string /\
       (st = Done (Ok tt) -> exists bytes c, rest = bytes ++ [Frame (EChecksum c)])).
Proof.
  pose proof (retrieval_gen md5 closed n s) as G.
  destruct (exec closed (ServerSaloni.handleRetrieval md5 n) s) as [st s'].
  destruct G as (Hfs & Hinp & [(data & _ & Hst & Hout) | (m & e & Hst & Hout)]).
  - split; [exact Hfs|]. split; [exact Hinp|].
    exists true, "Ready to send"%string, (N.of_nat (List.length data)),
      (map Raw data ++ [Frame (EChecksum (md5 data))]).
    split; [exact Hout|]. split; [intros Hc; discriminate Hc|].
    intros _. split; [reflexivity|]. intros _. eexists _, _. reflexivity.
  - split; [exact Hfs|]. split; [exact Hinp|].
    exists false, m, 0%N, []. split; [exact Hout|]. split.
    + intros _. split; [reflexivity|]. split; [reflexivity|]. exists e. exact Hst.
    + intros Hc. discriminate Hc.
Qed.

(** X4. A retrieval request never changes the directory and never reads from
    the connection. The first thing it sends is one RetrievalResponse. A
    refusal (ok false) carries size 0, is the only thing sent, and the
    handler returns an error. An accepting response carries the message
    "Ready to send", and when the handler then returns success, the last
    thing it sent is a ChecksumVerification. Both servers. *)
Theorem retrieval_first_reply (md5 : list byte -> list byte) (closed : bool) (n : string) (s : side) :
  (let (st, s') := exec closed (ServerSaloni.handleRetrieval md5 n) s in
   sfs s' = sfs s /\ sinp s' = sinp s /\
   exists ok m size rest,
     sout s' = sout s ++ Frame (ERetrievalResp ok m size) :: rest /\
     (ok = false -> size = 0%N /\ rest = [] /\ exists e, st = Done (Err e)) /\
     (ok = true -> m = "Ready to send"%string /\
        (st = Done (Ok tt) -> exists bytes c, rest = bytes ++ [Frame (EChecksum c)]))) /\
  (let (st, s') := exec closed (SaloniServer.handleRetrieval md5 n) s in
   sfs s' = sfs s /\ sinp s' = sinp s /\
   exists ok m size rest,
     sout s' = sout s ++ Frame (ERetrievalResp ok m size) :: rest /\
     (ok = false -> size = 0%N /\ rest = [] /\ exists e, st = Done (Err e)) /\
     (ok = true -> m = "Ready to send"%string /\
        (st = Done (Ok tt) -> exists bytes c, rest = bytes ++ [Frame (EChecksum c)]))).
Proof.
  split; [|rewrite retrieval_same_prog]; apply retrieval_reply_gen.
Qed.

(** ** The client *)

(** X5. [put] never changes the local directory. When it succeeds, the file
    was readable with contents [data], the server answered two ok Responses,
    and [put] sent exactly the StorageRequest with the size of [data], the
    bytes of [data] and their digest. *)
Theorem put_outcome (md5 : list byte -> list byte) (closed : bool) (n : string) (s : side) :
  let (st, s') := exec closed (Client.put md5 n) s in
  sfs s' = sfs s /\
  (st = Done (Ok tt) ->
   exists data m1 m2,
     fs_read (sfs s) n = Ok data /\
     sinp s = Frame (EResponse true m1) :: Frame (EResponse true m2) :: sinp s' /\
     sout s' = sout s ++ Frame (EStorageReq n (N.of_nat (List.length data)))
                        :: map Raw data ++ [Frame (EChecksum (md5 data))]).
Proof.
  destruct s as [fs inp out lg].
  unfold Client.put, SendStorageRequest, ReceiveResponse, Receive, SendChecksumVerification. cbn.
  destruct (fs_stat fs n) as [size|m] eqn:Es; cbn; [|split; [reflexivity|discriminate]].
  destruct (receive closed inp) as [[r1 rest1]|] eqn:R1; cbn; [|split; [reflexivity|discriminate]].
  destruct r1 as [[| |ok1 m1| | |]|err1]; cbn; try (split; [reflexivity|discriminate]).
  destruct ok1; cbn; [|split; [reflexivity|discriminate]].
  destruct (fs_read fs n) as [data|m] eqn:Er; cbn; [|split; [reflexivity|discriminate]].
  destruct (receive closed rest1) as [[r2 rest2]|] eqn:R2; cbn; [|split; [reflexivity|discriminate]].
  destruct r2 as [[| |ok2 m2| | |]|err2]; cbn; try (split; [reflexivity|discriminate]).
  destruct ok2; cbn; [|split; [reflexivity|discriminate]].
  split; [reflexivity|]. intros _. exists data, m1, m2.
  split; [reflexivity|].
  unfold receive in R1, R2.
  destruct inp as [|[b|f] inp]; [destruct closed; discriminate|discriminate|].
  injection R1 as -> <-.
  destruct inp as [|[b|f] inp]; [destruct closed; discriminate|discriminate|].
  injection R2 as -> <-.
  split; [reflexivity|].
  rewrite (stat_read_same _ _ _ _ Es Er), <- !app_assoc. reflexivity.
Qed.

(** [put_outcome] on a successful upload of "hello". *)
Lemma put_outcome_witness :
  fst (exec true (Client.put sample_digest "a.txt") (mkSide hello_fs two_oks [] [])) = Done (Ok tt) /\
  exists data, fs_read hello_fs "a.txt" = Ok data /\ N.of_nat (List.length data) = 5%N.
Proof.
  pose proof (put_outcome sample_digest true "a.txt" (mkSide hello_fs two_oks [] [])) as H.
  destruct (exec true (Client.put sample_digest "a.txt") (mkSide hello_fs two_oks [] []))
    as [st s'] eqn:E.
  vm_compute in E. injection E as <- _.
  destruct H as [_ H]. destruct (H eq_refl) as [data [m1 [m2 [Hr _]]]].
  split; [reflexivity|]. exists data. split; [exact Hr|].
  vm_compute in Hr. injection Hr as <-. reflexivity.
Defined.

(** X6. [put] sends no file bytes unless the server accepted: when the first
    reply is not an ok Response (a refusal, another envelope, end of stream
    or a malformed frame), [put] has sent only the StorageRequest, opens
    nothing, and returns "server rejected storage request". *)
Theorem put_rejected_sends_only_request (md5 : list byte -> list byte) (closed : bool) (n : string) (s : side)
    (size : N) (r : result envelope rerr) (rest : list item) :
  fs_stat (sfs s) n = Ok size ->
  receive closed (sinp s) = Some (r, rest) ->
  (forall m, r <> Ok (EResponse true m)) ->
  exec closed (Client.put md5 n) s
  = (Done (Err CRejectedStorage),
     mkSide (sfs s) rest (sout s ++ [Frame (EStorageReq n size)])
            (EvRecvMsg r :: EvSend [Frame (EStorageReq n size)] :: EvStat n :: slog s)).
Proof.
  destruct s as [fs inp out lg]; cbn. intros Es R Hr.
  unfold Client.put, SendStorageRequest, ReceiveResponse, Receive. cbn.
  rewrite Es. cbn. rewrite R. cbn.
  destruct r as [[| |ok m| | |]|err]; try reflexivity.
  destruct ok; [exfalso; exact (Hr m eq_refl)|reflexivity].
Qed.

(** [put_rejected_sends_only_request] when the server refuses "a.txt". *)
Lemma put_rejected_sends_only_request_witness :
  exec true (Client.put sample_digest "a.txt")
       (mkSide hello_fs [Frame (EResponse false "open a.txt: file exists")] [] [])
  = (Done (Err CRejectedStorage),
     mkSide hello_fs [] ([] ++ [Frame (EStorageReq "a.txt" 5)])
            (EvRecvMsg (Ok (EResponse false "open a.txt: file exists"))
             :: EvSend [Frame (EStorageReq "a.txt" 5)] :: EvStat "a.txt" :: [])).
Proof.
  exact (put_rejected_sends_only_request sample_digest true "a.txt"
           (mkSide hello_fs [Frame (EResponse false "open a.txt: file exists")] [] [])
           5 (Ok (EResponse false "open a.txt: file exists")) []
           ltac:(vm_compute; reflexivity) ltac:(vm_compute; reflexivity)
           ltac:(intros m Hm; discriminate)).
Defined.

(** X7. [get] succeeds only when the server answered an ok RetrievalResponse
    with some size, then the bytes [bs] as raw payload (as many as the size,
    for sizes below 2^63), then a ChecksumMessage with [md5 bs]; the local
    file did not exist before and now holds exactly [bs]; [get] sent only
    the RetrievalRequest. *)
Theorem get_success_outcome (md5 : list byte -> list byte) (closed : bool) (n : string) (s s' : side) :
  exec closed (Client.get md5 n) s = (Done (Ok tt), s') ->
  exists m size bs,
    sinp s = Frame (ERetrievalResp true m size) :: map Raw bs ++ Frame (EChecksum (md5 bs)) :: sinp s' /\
    (Z.of_N size < 2 ^ 63 -> N.of_nat (List.length bs) = size) /\
    files (sfs s) !! n = None /\
    files (sfs s') = <[n := bs]> (files (sfs s)) /\
    sout s' = sout s ++ [Frame (ERetrievalReq n)].
Proof.
  destruct s as [fs inp out lg].
  unfold Client.get, SendRetrievalRequest, ReceiveRetrievalResponse, Receive, CopyN, GetChecksum. cbn.
  destruct (fs_create fs n) as [[cm|] fs1] eqn:Ec; cbn; [discriminate|].
  destruct (receive closed inp) as [[r1 rest1]|] eqn:R1; cbn; [|discriminate].
  destruct r1 as [[| | |ok m size| |]|err1]; cbn; try discriminate.
  destruct ok; cbn; [|discriminate].
  destruct (copyN (int64_of_uint64 size) closed rest1) as [[[bs [er|]] rest2]|] eqn:Ecp;
    cbn; try discriminate.
  destruct (receive closed rest2) as [[[env|err] rest3]|] eqn:R2; cbn; try discriminate.
  destruct env; cbn; try discriminate.
  destruct (VerifyChecksum checksum (md5 bs)) eqn:Ev; cbn; [|discriminate].
  intros H. injection H as <-.
  apply VerifyChecksum_eq in Ev. subst checksum.
  unfold fs_create in Ec.
  destruct (create_err fs n) eqn:Hce; [discriminate|].
  destruct (files fs !! n) eqn:Hf; [discriminate|].
  injection Ec as <-.
  destruct (copyN_spec _ _ _ _ _ _ Ecp) as [Hinp [Hlen _]].
  unfold receive in R1, R2.
  destruct inp as [|[b|f] inp]; [destruct closed; discriminate|discriminate|].
  injection R1 as -> <-.
  destruct rest2 as [|[b|f] rest2]; [destruct closed; discriminate|discriminate|].
  injection R2 as -> <-.
  exists m, size, bs. cbn. split; [rewrite Hinp; reflexivity|].
  split; [|split; [reflexivity|split]].
  - intros Hs. specialize (Hlen eq_refl). rewrite int64_of_uint64_id in Hlen by exact Hs. lia.
  - unfold fs_write. cbn. rewrite lookup_insert_eq. cbn. rewrite insert_insert_eq. reflexivity.
  - reflexivity.
Qed.

(** [get_success_outcome] on a download of "hello". *)
Lemma get_success_outcome_witness :
  exists m size bs,
    files (sfs (snd (exec true (Client.get sample_digest "a.txt") (mkSide empty_fs hello_download [] []))))
      = <["a.txt"%string := bs]> (files empty_fs) /\
    (Z.of_N size < 2 ^ 63 -> N.of_nat (List.length bs) = size) /\ m = "Ready to send"%string.
Proof.
  destruct (get_success_outcome sample_digest true "a.txt" (mkSide empty_fs hello_download [] [])
              (snd (exec true (Client.get sample_digest "a.txt") (mkSide empty_fs hello_download [] [])))
              ltac:(vm_compute; reflexivity))
    as [m [size [bs [Hi [Hl [_ [Hf _]]]]]]].
  exists m, size, bs. split; [exact Hf|]. split; [exact Hl|].
  vm_compute in Hi. injection Hi as Hm. exact (eq_sym Hm).
Defined.

(** X8. When the envelope after a complete download is not a
    ChecksumMessage, [GetChecksum] yields nil and [get] panics; the local
    file stays behind holding the downloaded bytes. *)
Theorem get_panic_keeps_partial (md5 : list byte -> list byte) (closed : bool) (n : string) (s : side)
    (m : string) (bs : list byte) (e : envelope) (rest : list item) :
  create_err (sfs s) n = None -> files (sfs s) !! n = None ->
  sinp s = Frame (ERetrievalResp true m (N.of_nat (List.length bs))) :: map Raw bs ++ Frame e :: rest ->
  Z.of_nat (List.length bs) < 2 ^ 63 ->
  (forall c, e <> EChecksum c) ->
  let (st, s') := exec closed (Client.get md5 n) s in
  st = Panicked "invalid memory address or nil pointer dereference" /\
  files (sfs s') = <[n := bs]> (files (sfs s)) /\
  sinp s' = rest.
Proof.
  destruct s as [fs inp out lg]; cbn. intros Hce Hf -> Hl He.
  assert (Ec : fs_create fs n = (None, set_files fs (<[n := []]> (files fs))))
    by (unfold fs_create; rewrite Hce, Hf; reflexivity).
  assert (Ei : int64_of_uint64 (N.of_nat (List.length bs)) = Z.of_nat (List.length bs))
    by (rewrite int64_of_uint64_id; lia).
  unfold Client.get, SendRetrievalRequest, ReceiveRetrievalResponse, Receive, CopyN, GetChecksum. cbn.
  rewrite Ec. cbn. rewrite Ei, copyN_full. cbn.
  destruct e; cbn; try (split; [reflexivity|]; split; [|reflexivity];
    unfold fs_write; cbn; rewrite lookup_insert_eq; cbn; rewrite insert_insert_eq; reflexivity).
  exfalso. exact (He checksum eq_refl).
Qed.

(** [get_panic_keeps_partial] on "hello" followed by a RetrievalRequest. *)
Lemma get_panic_keeps_partial_witness :
  let (st, s') := exec true (Client.get sample_digest "a.txt")
                    (mkSide empty_fs
                       (Frame (ERetrievalResp true "Ready to send" (N.of_nat (List.length hello)))
                        :: panic_upload) [] []) in
  st = Panicked "invalid memory address or nil pointer dereference" /\
  files (sfs s') = <["a.txt"%string := hello]> (files empty_fs) /\ sinp s' = [].
Proof.
  exact (get_panic_keeps_partial sample_digest true "a.txt"
           (mkSide empty_fs
              (Frame (ERetrievalResp true "Ready to send" (N.of_nat (List.length hello)))
               :: panic_upload) [] [])
           "Ready to send" hello (ERetrievalReq "b.txt") []
           eq_refl eq_refl eq_refl ltac:(vm_compute; reflexivity) ltac:(intros c; discriminate)).
Defined.

(** X9. A RetrievalResponse size of 2^63 or more becomes negative through
    [int64(size)], so [get] reads no payload at all: the next envelope is
    taken as the checksum, and [get] succeeds with an empty local file when
    it carries the digest of no bytes, and otherwise removes the file and
    reports a mismatch. *)
Theorem get_huge_size_reads_no_payload (md5 : list byte -> list byte) (closed : bool) (n : string) (s : side)
    (m : string) (size : N) (c : list byte) (rest : list item) :
  create_err (sfs s) n = None -> files (sfs s) !! n = None ->
  2 ^ 63 <= Z.of_N size < 2 ^ 64 ->
  sinp s = Frame (ERetrievalResp true m size) :: Frame (EChecksum c) :: rest ->
  let (st, s') := exec closed (Client.get md5 n) s in
  sinp s' = rest /\
  (c = md5 [] -> st = Done (Ok tt) /\ files (sfs s') = <[n := []]> (files (sfs s))) /\
  (c <> md5 [] -> st = Done (Err CChecksumMismatch) /\ files (sfs s') = files (sfs s)).
Proof.
  destruct s as [fs inp out lg]; cbn. intros Hce Hf Hs ->.
  assert (Ec : fs_create fs n = (None, set_files fs (<[n := []]> (files fs))))
    by (unfold fs_create; rewrite Hce, Hf; reflexivity).
  assert (Ecp : copyN (int64_of_uint64 size) closed (Frame (EChecksum c) :: rest)
                = Some ([], None, Frame (EChecksum c) :: rest)).
  { unfold copyN. pose proof (int64_of_uint64_large size Hs) as Hn.
    destruct (Z.leb_spec (int64_of_uint64 size) 0); [reflexivity|lia]. }
  unfold Client.get, SendRetrievalRequest, ReceiveRetrievalResponse, Receive, CopyN, GetChecksum. cbn.
  rewrite Ec. cbn. rewrite Ecp. cbn.
  assert (Hw : fs_write (set_files fs (<[n:=[]]> (files fs))) n [] = set_files fs (<[n:=[]]> (files fs))).
  { unfold fs_write. cbn. rewrite lookup_insert_eq. cbn. rewrite insert_insert_eq. reflexivity. }
  rewrite Hw.
  destruct (VerifyChecksum c (md5 [])) eqn:Ev; cbn.
  - apply VerifyChecksum_eq in Ev.
    split; [reflexivity|]. split; [intros _; split; reflexivity|]. intros Hne. contradiction.
  - split; [reflexivity|]. split.
    + intros ->. rewrite VerifyChecksum_refl in Ev. discriminate.
    + intros _. split; [reflexivity|]. rewrite delete_insert_id by exact Hf. reflexivity.
Qed.

(** [get_huge_size_reads_no_payload] for the size 2^63. *)
Lemma get_huge_size_reads_no_payload_witness :
  let (st, s') := exec true (Client.get sample_digest "a.txt")
                    (mkSide empty_fs [Frame (ERetrievalResp true "Ready to send" (2 ^ 63));
                                      Frame (EChecksum [])] [] []) in
  sinp s' = [] /\
  ([] = sample_digest [] -> st = Done (Ok tt) /\ files (sfs s') = <["a.txt"%string := []]> (files empty_fs)) /\
  ([] <> sample_digest [] -> st = Done (Err CChecksumMismatch) /\ files (sfs s') = files empty_fs).
Proof.
  exact (get_huge_size_reads_no_payload sample_digest true "a.txt"
           (mkSide empty_fs [Frame (ERetrievalResp true "Ready to send" (2 ^ 63));
                             Frame (EChecksum [])] [] [])
           "Ready to send" (2 ^ 63) [] [] eq_refl eq_refl
           ltac:(split; vm_compute; [intros Hc; discriminate | reflexivity]) eq_refl).
Defined.

(** ** The connection loops *)

Ltac fuel_case IH :=
  match goal with
  | |- exec true (bind ?h _) ?s1 = exec true (bind ?h _) ?s1 =>
      rewrite !exec_bind;
      pose proof (exec_closed_finished h s1) as Hfin;
      pose proof (exec_inp_suffix true h s1) as [pre Hpre];
      destruct (exec true h s1) as [[r|w|q] s2]; cbn in Hfin, Hpre |- *;
      [apply IH; rewrite Hpre, length_app in *; lia | reflexivity | discriminate]
  end.

Lemma ss_fuel (md5 : list byte -> list byte) (f : nat) (s : side) :
  (List.length (sinp s) < f)%nat ->
  exec true (ServerSaloni.handleClient md5 f) s = exec true (ServerSaloni.handleClient md5 (S f)) s.
Proof.
  revert s. induction f as [|f IH]; intros [fs inp out lg] Hl; cbn in Hl; [lia|].
  cbn [ServerSaloni.handleClient]. rewrite !exec_bind. cbn [exec Receive sinp].
  destruct inp as [|[b|e] inp]; cbn [receive]; cbv beta iota; try reflexivity.
  cbn in Hl. destruct e; cbn [exec]; try reflexivity; try fuel_case IH;
    apply IH; cbn; lia.
Qed.

Lemma sv_fuel (md5 : list byte -> list byte) (f : nat) (s : side) :
  (List.length (sinp s) < f)%nat ->
  exec true (SaloniServer.handleClient md5 f) s = exec true (SaloniServer.handleClient md5 (S f)) s.
Proof.
  revert s. induction f as [|f IH]; intros [fs inp out lg] Hl; cbn in Hl; [lia|].
  cbn [SaloniServer.handleClient]. rewrite !exec_bind. cbn [exec Receive sinp].
  destruct inp as [|[b|e] inp]; cbn [receive]; cbv beta iota; try reflexivity.
  cbn in Hl. destruct e; cbn [exec]; try reflexivity; try fuel_case IH;
    apply IH; cbn; lia.
Qed.

(** X10. On a connection the client has closed, each server's loop ends
    within one pass more than the number of items received: running it for
    more passes gives the same result. Every pass reads at least one item. *)
Theorem handleClient_fuel_bound (md5 : list byte -> list byte) (s : side) (f1 f2 : nat) :
  (List.length (sinp s) < f1)%nat -> (f1 <= f2)%nat ->
  exec true (ServerSaloni.handleClient md5 f1) s = exec true (ServerSaloni.handleClient md5 f2) s /\
  exec true (SaloniServer.handleClient md5 f1) s = exec true (SaloniServer.handleClient md5 f2) s.
Proof.
  intros Hl Hle. induction Hle as [|f2 Hle [IH1 IH2]]; [split; reflexivity|].
  split.
  - rewrite IH1. apply ss_fuel. lia.
  - rewrite IH2. apply sv_fuel. lia.
Qed.

(** [handleClient_fuel_bound] on one RetrievalRequest, 2 and 5 passes. *)
Lemma handleClient_fuel_bound_witness :
  exec true (ServerSaloni.handleClient sample_digest 2) (mkSide hello_fs [Frame (ERetrievalReq "a.txt")] [] [])
  = exec true (ServerSaloni.handleClient sample_digest 5) (mkSide hello_fs [Frame (ERetrievalReq "a.txt")] [] []) /\
  exec true (SaloniServer.handleClient sample_digest 2) (mkSide hello_fs [Frame (ERetrievalReq "a.txt")] [] [])
  = exec true (SaloniServer.handleClient sample_digest 5) (mkSide hello_fs [Frame (ERetrievalReq "a.txt")] [] []).
Proof.
  apply handleClient_fuel_bound; simpl; lia.
Defined.

(** X11. On a connection the client has closed, the loops of the two servers
    behave the same (same result, directory, output and log) whenever every
    StorageRequest received names a file without '/'. *)
Theorem servers_agree (md5 : list byte -> list byte) (f : nat) (s : side) :
  storage_names_plain (sinp s) = true ->
  exec true (SaloniServer.handleClient md5 f) s = exec true (ServerSaloni.handleClient md5 f) s.
Proof.
  revert s. induction f as [|f IH]; intros [fs inp out lg] Hp; [reflexivity|].
  cbn [SaloniServer.handleClient ServerSaloni.handleClient]. rewrite !exec_bind.
  cbn [exec Receive sinp] in Hp |- *.
  destruct inp as [|[b|e] inp]; cbn [receive]; cbv beta iota; try reflexivity.
  - cbn in Hp. apply andb_true_iff in Hp as [He Hp].
    destruct e; cbn [exec]; try reflexivity; try (apply IH; exact Hp).
    + rewrite storage_same_prog by exact He. rewrite !exec_bind.
      match goal with |- context [exec true ?h ?s1] =>
        pose proof (exec_inp_suffix true h s1) as [pre Hpre];
        pose proof (exec_closed_finished h s1) as Hfin;
        destruct (exec true h s1) as [[r|w|q] s2] end;
      cbn in Hpre, Hfin |- *; try reflexivity; try discriminate.
      apply IH. unfold storage_names_plain in *. rewrite Hpre, forallb_app in Hp.
      apply andb_true_iff in Hp as [_ Hp]. exact Hp.
    + rewrite retrieval_same_prog. rewrite !exec_bind.
      match goal with |- context [exec true ?h ?s1] =>
        pose proof (exec_inp_suffix true h s1) as [pre Hpre];
        pose proof (exec_closed_finished h s1) as Hfin;
        destruct (exec true h s1) as [[r|w|q] s2] end;
      cbn in Hpre, Hfin |- *; try reflexivity; try discriminate.
      apply IH. unfold storage_names_plain in *. rewrite Hpre, forallb_app in Hp.
      apply andb_true_iff in Hp as [_ Hp]. exact Hp.
Qed.

(** [servers_agree] on a store of "hello" followed by a retrieval. *)
Lemma servers_agree_witness :
  storage_names_plain (Frame (EStorageReq "b.txt" 5) :: hello_upload ++ [Frame (ERetrievalReq "a.txt")]) = true /\
  exec true (SaloniServer.handleClient sample_digest 4)
       (mkSide hello_fs (Frame (EStorageReq "b.txt" 5) :: hello_upload ++ [Frame (ERetrievalReq "a.txt")]) [] [])
  = exec true (ServerSaloni.handleClient sample_digest 4)
       (mkSide hello_fs (Frame (EStorageReq "b.txt" 5) :: hello_upload ++ [Frame (ERetrievalReq "a.txt")]) [] []).
Proof.
  split; [vm_compute; reflexivity|].
  apply servers_agree. vm_compute. reflexivity.
Defined.

(** X12. A connection on which no StorageRequest arrives leaves the server's
    directory unchanged, for both servers, however the connection goes. *)
Theorem handleClient_read_only (md5 : list byte -> list byte) (closed : bool) (f : nat) (s : side) :
  storage_free (sinp s) = true ->
  sfs (snd (exec closed (ServerSaloni.handleClient md5 f) s)) = sfs s /\
  sfs (snd (exec closed (SaloniServer.handleClient md5 f) s)) = sfs s.
Proof.
  revert s. induction f as [|f IH]; intros [fs inp out lg] Hp; [split; reflexivity|].
  cbn [SaloniServer.handleClient ServerSaloni.handleClient]. rewrite !exec_bind.
  cbn [exec Receive sinp] in Hp |- *.
  destruct inp as [|[b|e] inp]; cbn [receive].
  - destruct closed; split; reflexivity.
  - split; reflexivity.
  - cbn in Hp. apply andb_true_iff in Hp as [He Hp].
    destruct e; cbv beta iota; try discriminate; try (split; reflexivity);
      try exact (IH (mkSide _ _ _ _) Hp).
    split.
    + rewrite exec_bind.
      pose proof (retrieval_gen md5 closed fileName
                    (mkSide fs inp out (EvRecvMsg (Ok (ERetrievalReq fileName)) :: lg))) as Hr.
      destruct (exec closed (ServerSaloni.handleRetrieval md5 fileName) _) as [[r|w|q] s2].
      all: destruct Hr as [Hfs [Hin _]]; cbn in Hfs, Hin |- *.
      * rewrite (proj1 (IH s2 ltac:(rewrite Hin; exact Hp))). exact Hfs.
      * exact Hfs.
      * exact Hfs.
    + rewrite exec_bind, retrieval_same_prog.
      pose proof (retrieval_gen md5 closed fileName
                    (mkSide fs inp out (EvRecvMsg (Ok (ERetrievalReq fileName)) :: lg))) as Hr.
      destruct (exec closed (ServerSaloni.handleRetrieval md5 fileName) _) as [[r|w|q] s2].
      all: destruct Hr as [Hfs [Hin _]]; cbn in Hfs, Hin |- *.
      * rewrite (proj2 (IH s2 ltac:(rewrite Hin; exact Hp))). exact Hfs.
      * exact Hfs.
      * exact Hfs.
Qed.

(** [handleClient_read_only] on a retrieval followed by a stray Response. *)
Lemma handleClient_read_only_witness :
  sfs (snd (exec true (ServerSaloni.handleClient sample_digest 3)
              (mkSide hello_fs [Frame (ERetrievalReq "a.txt"); Frame (EResponse true "x")] [] []))) = hello_fs /\
  sfs (snd (exec true (SaloniServer.handleClient sample_digest 3)
              (mkSide hello_fs [Frame (ERetrievalReq "a.txt"); Frame (EResponse true "x")] [] []))) = hello_fs.
Proof.
  exact (handleClient_read_only sample_digest true 3
           (mkSide hello_fs [Frame (ERetrievalReq "a.txt"); Frame (EResponse true "x")] [] [])
           ltac:(vm_compute; reflexivity)).
Defined.

(** ** Names in [saloni_server.go] *)

Lemma split_slash_nonempty (s : string) : split_slash s <> [].
Proof.
  destruct s as [|c r]; cbn; [discriminate|].
  destruct (Ascii.eqb c "/"%char); [discriminate|].
  destruct (split_slash r); discriminate.
Qed.

Lemma split_slash_last (s : string) :
  (tl (split_slash s) = [] -> s = hd EmptyString (split_slash s)) /\
  (exists pre, s = String.append pre (last_part s)) /\
  no_slash (last_part s) = true.
Proof.
  unfold last_part.
  induction s as [|c r [IH1 [[pre IH2] IH3]]]; cbn.
  - split; [reflexivity|]. split; [exists EmptyString; reflexivity|reflexivity].
  - pose proof (split_slash_nonempty r) as Hne.
    destruct (Ascii.eqb c "/"%char) eqn:Ec.
    + cbn. split; [intros H; contradiction|].
      destruct (split_slash r) as [|p ps] eqn:Er; [contradiction|].
      split; [exists (String c pre); rewrite IH2; reflexivity|exact IH3].
    + destruct (split_slash r) as [|p ps] eqn:Er; [contradiction|]. cbn in IH1 |- *.
      destruct ps as [|p' ps].
      * cbn in IH2, IH3 |- *. rewrite (IH1 eq_refl).
        split; [reflexivity|]. split; [exists EmptyString; reflexivity|].
        unfold no_slash in *. cbn. rewrite Ec. exact IH3.
      * split; [discriminate|].
        split; [exists (String c pre); rewrite IH2; reflexivity|exact IH3].
Qed.

(** X13. The name [saloni_server.go] stores under, the last part of the
    requested name after splitting on '/', contains no '/' and is a suffix of
    the requested name. *)
Theorem last_part_plain_suffix (name : string) :
  no_slash (last_part name) = true /\ exists pre, name = String.append pre (last_part name).
Proof.
  destruct (split_slash_last name) as [_ [H1 H2]]. split; [exact H2|exact H1].
Qed.
